(** * Venda Hoje checkout API (src/api/app.py)

    A shallow embedding of the Flask gateway in front of the GhostPay PIX
    processor: the module-level configuration, [clean_document],
    [create_headers], and the two views [create_payment] and
    [check_payment], followed by the properties of the specification that
    concern them.

    Python values are modelled as the JSON-shaped values the handlers
    manipulate, Python strings as sequences of Unicode code points, dicts
    as finite maps, and the views as computations in an error monad that
    also records every outbound HTTP call. *)

From Stdlib Require Import ZArith NArith String Ascii.
From Stdlib Require QArith.
From stdpp Require Import base option list gmap.

Set Warnings "-register-all".

Local Open Scope Z_scope.

(** ** Python strings *)

(** A Python [str] is a sequence of code points; [s[:n]] is [take n s]. *)
Definition codepoint := N.
Definition str := list N.

(** Source literals are written as Rocq strings, whose bytes are the UTF-8
    encoding of the literal; [py] decodes them to code points. *)
Fixpoint utf8_decode (need : nat) (acc : N) (bs : list N) : str :=
  match bs with
  | [] => []
  | b :: bs' =>
      match need with
      | O =>
          if (b <? 128)%N then b :: utf8_decode 0 0%N bs'
          else if (b <? 224)%N then utf8_decode 1 (N.land b 31) bs'
          else if (b <? 240)%N then utf8_decode 2 (N.land b 15) bs'
          else utf8_decode 3 (N.land b 7) bs'
      | S O => (acc * 64 + N.land b 63)%N :: utf8_decode 0 0%N bs'
      | S n => utf8_decode n (acc * 64 + N.land b 63)%N bs'
      end
  end.

Definition py (s : string) : str :=
  utf8_decode 0 0%N (map N_of_ascii (list_ascii_of_string s)).

(** [str.encode()]: UTF-8, which rejects surrogates (UnicodeEncodeError). *)
Definition utf8_encode_char (c : codepoint) : option (list N) :=
  if (c <? 128)%N then Some [c]
  else if (c <? 2048)%N then
    Some [N.lor 192 (N.shiftr c 6); N.lor 128 (N.land c 63)]
  else if (c <? 55296)%N || ((57343 <? c)%N && (c <? 65536)%N) then
    Some [N.lor 224 (N.shiftr c 12); N.lor 128 (N.land (N.shiftr c 6) 63);
          N.lor 128 (N.land c 63)]
  else if (65535 <? c)%N && (c <? 1114112)%N then
    Some [N.lor 240 (N.shiftr c 18); N.lor 128 (N.land (N.shiftr c 12) 63);
          N.lor 128 (N.land (N.shiftr c 6) 63); N.lor 128 (N.land c 63)]
  else None.

Fixpoint utf8_encode (s : str) : option (list N) :=
  match s with
  | [] => Some []
  | c :: s' =>
      match utf8_encode_char c, utf8_encode s' with
      | Some bs, Some rest => Some (bs ++ rest)
      | _, _ => None
      end
  end.

(** [base64.b64encode] over a byte sequence, the result read as ASCII. *)
Definition b64char (n : N) : codepoint :=
  if (n <? 26)%N then (65 + n)%N
  else if (n <? 52)%N then (97 + (n - 26))%N
  else if (n <? 62)%N then (48 + (n - 52))%N
  else if (n =? 62)%N then 43%N
  else 47%N.

Fixpoint b64encode (bs : list N) : str :=
  match bs with
  | [] => []
  | [a] =>
      [b64char (N.shiftr a 2); b64char (N.shiftl (N.land a 3) 4); 61%N; 61%N]
  | [a; b] =>
      [b64char (N.shiftr a 2);
       b64char (N.lor (N.shiftl (N.land a 3) 4) (N.shiftr b 4));
       b64char (N.shiftl (N.land b 15) 2); 61%N]
  | a :: b :: c :: rest =>
      b64char (N.shiftr a 2)
      :: b64char (N.lor (N.shiftl (N.land a 3) 4) (N.shiftr b 4))
      :: b64char (N.lor (N.shiftl (N.land b 15) 2) (N.shiftr c 6))
      :: b64char (N.land c 63)
      :: b64encode rest
  end.

(** [str(n)] for an [int]: decimal digits, with a sign when negative. *)
Fixpoint digits_of_uint (u : Decimal.uint) : str :=
  match u with
  | Decimal.Nil => []
  | Decimal.D0 u' => 48%N :: digits_of_uint u'
  | Decimal.D1 u' => 49%N :: digits_of_uint u'
  | Decimal.D2 u' => 50%N :: digits_of_uint u'
  | Decimal.D3 u' => 51%N :: digits_of_uint u'
  | Decimal.D4 u' => 52%N :: digits_of_uint u'
  | Decimal.D5 u' => 53%N :: digits_of_uint u'
  | Decimal.D6 u' => 54%N :: digits_of_uint u'
  | Decimal.D7 u' => 55%N :: digits_of_uint u'
  | Decimal.D8 u' => 56%N :: digits_of_uint u'
  | Decimal.D9 u' => 57%N :: digits_of_uint u'
  end.

Definition str_of_int (z : Z) : str :=
  match Z.to_int z with
  | Decimal.Pos u => digits_of_uint u
  | Decimal.Neg u => 45%N :: digits_of_uint u
  end.

(** [s.startswith(p)]. *)
Fixpoint startswith (p s : str) : bool :=
  match p, s with
  | [], _ => true
  | a :: p', b :: s' => (a =? b)%N && startswith p' s'
  | _ :: _, [] => false
  end.

(** [p in s] for two strings: substring search. *)
Fixpoint is_substring (p s : str) : bool :=
  startswith p s ||
  match s with
  | [] => false
  | _ :: s' => is_substring p s'
  end.

(** ** Python values *)

(** A [float] as JSON parsing produces it: a finite value (kept as the
    rational it denotes) or one of the three specials Python's parser
    accepts. *)
Inductive pyfloat :=
| nan
| inf (negative : bool)
| finite (q : QArith_base.Q).

Inductive value :=
| VNone
| VBool (b : bool)
| VInt (z : Z)
| VFloat (f : pyfloat)
| VStr (s : str)
| VList (l : list value)
| VDict (d : gmap str value).

Abbreviation dict := (gmap str value).

Inductive pytype :=
| NoneType | bool_t | int_t | float_t | str_t | list_t | dict_t.

Definition type_of (v : value) : pytype :=
  match v with
  | VNone => NoneType
  | VBool _ => bool_t
  | VInt _ => int_t
  | VFloat _ => float_t
  | VStr _ => str_t
  | VList _ => list_t
  | VDict _ => dict_t
  end.

(** Exceptions the handlers can meet.  [Raised] stands for whatever Flask
    or requests raises (bad request body, timeout, connection failure,
    malformed JSON), carrying its [str(e)]. *)
Inductive operation := op_contains | op_subscript | op_less | op_re_sub.

Inductive exn :=
| TypeError (op : operation) (t : pytype)
| AttributeError (t : pytype) (attr : str)
| KeyError (key : str)
| UnicodeEncodeError
| Raised (msg : str).

Inductive result (A : Type) :=
| Ok (a : A)
| Raise (e : exn).
Arguments Ok {A} a.
Arguments Raise {A} e.

(** What the interpreter supplies and the source does not spell out: the
    [\d] class of [re] on [str] patterns (Unicode category Nd, which on
    ASCII is exactly 0-9) and the text [str(e)] of an exception. *)
Class Runtime := {
  unicode_decimal : codepoint -> bool;
  unicode_decimal_ascii :
    forall c : codepoint, (c < 128)%N ->
      unicode_decimal c = ((48 <=? c)%N && (c <=? 57)%N);
  exn_text : exn -> str;
}.

(** Truth value of an object, as [if v:] and [not v] test it. *)
Definition float_is_zero (f : pyfloat) : bool :=
  match f with
  | finite q => (QArith_base.Qnum q =? 0)
  | _ => false
  end.

Definition truthy (v : value) : bool :=
  match v with
  | VNone => false
  | VBool b => b
  | VInt z => negb (z =? 0)
  | VFloat f => negb (float_is_zero f)
  | VStr s => match s with [] => false | _ => true end
  | VList l => match l with [] => false | _ => true end
  | VDict d => negb (bool_decide (d = ∅))
  end.

(** [d.get(k)] and [d.get(k, dflt)]: only dicts have [get]. *)
Definition py_get (v : value) (k : str) (dflt : value) : result value :=
  match v with
  | VDict d => Ok (default dflt (d !! k))
  | _ => Raise (AttributeError (type_of v) (py "get"))
  end.

(** [k in v] for a string [k]: key membership in a dict, element
    membership in a list, substring search in a string; other objects are
    not iterable. *)
Definition is_str (k : str) (v : value) : bool :=
  match v with
  | VStr s => bool_decide (s = k)
  | _ => false
  end.

Definition py_contains (k : str) (v : value) : result bool :=
  match v with
  | VDict d => Ok (bool_decide (is_Some (d !! k)))
  | VList l => Ok (existsb (is_str k) l)
  | VStr s => Ok (is_substring k s)
  | _ => Raise (TypeError op_contains (type_of v))
  end.

(** [v[k]] for a string [k]: a dict lookup; every other object rejects a
    string subscript. *)
Definition py_getitem (v : value) (k : str) : result value :=
  match v with
  | VDict d =>
      match d !! k with
      | Some x => Ok x
      | None => Raise (KeyError k)
      end
  | _ => Raise (TypeError op_subscript (type_of v))
  end.

(** [v < n] for an int [n]: defined on bool, int and float only. *)
Definition float_lt_int (f : pyfloat) (n : Z) : bool :=
  match f with
  | nan => false
  | inf negative => negative
  | finite q => negb (QArith_base.Qle_bool (QArith_base.inject_Z n) q)
  end.

Definition py_lt_int (v : value) (n : Z) : result bool :=
  match v with
  | VBool b => Ok (Z.b2z b <? n)
  | VInt z => Ok (z <? n)
  | VFloat f => Ok (float_lt_int f n)
  | _ => Raise (TypeError op_less (type_of v))
  end.

(** Truth value of a module global that is [None] or a string. *)
Definition opt_truthy (o : option str) : bool :=
  match o with
  | Some (_ :: _) => true
  | _ => false
  end.

(** [f"{o}"] for such a global. *)
Definition format_opt (o : option str) : str :=
  match o with
  | Some s => s
  | None => py "None"
  end.

(** ** The outside world and the handler monad *)

(** An outbound call made through [requests]. *)
Inductive Call :=
| requests_post (url : str) (json : value) (headers : gmap str str)
    (timeout : Z)
| requests_get (url : str) (headers : gmap str str) (timeout : Z).

(** What [requests] hands back: the status, the raw body, and what
    [response.json()] gives (it raises on a body that is not JSON). *)
Record Response := {
  status_code : Z;
  text : str;
  json : result value;
}.

(** The world a request runs in: the clock, read as [int(time.time())],
    and the answer to an outbound call, a response or an exception. *)
Record World := {
  time : Z;
  requests : Call -> result Response;
}.

(** A computation either returns or raises, and appends the calls it makes
    to a log. *)
Definition M (A : Type) : Type := list Call -> result A * list Call.

#[local] Instance M_ret : MRet M := fun A a log => (Ok a, log).

#[local] Instance M_bind : MBind M := fun A B f m log =>
  match m log with
  | (Ok a, log') => f a log'
  | (Raise e, log') => (Raise e, log')
  end.

Definition lift {A} (r : result A) : M A := fun log => (r, log).

Definition send (w : World) (c : Call) : M Response :=
  fun log => (requests w c, log ++ [c]).

(** [try: ... except Exception as e: ...] around a whole view body, run
    from an empty log. *)
Definition try_except {A} (body : M A) (handler : exn -> A) : A * list Call :=
  match body [] with
  | (Ok a, log) => (a, log)
  | (Raise e, log) => (handler e, log)
  end.

(** ** Flask requests and responses *)

Inductive Method := GET | POST | OPTIONS.

Inductive Body :=
| EmptyBody
| Json (v : value).

Record HttpResponse := {
  status : Z;
  body : Body;
}.

(** An [HttpResponse] is the answer as the client gets it.  Werkzeug
    sends no body with a status 1xx, 204 or 304, whatever the view
    returned next to that status. *)
Definition bodiless (code : Z) : bool :=
  ((100 <=? code) && (code <? 200)) || (code =? 204) || (code =? 304).

(** [jsonify(d)], [return jsonify(d), code] and [return '', code]. *)
Definition jsonify (d : list (str * value)) : HttpResponse :=
  {| status := 200; body := Json (VDict (list_to_map d)) |}.

Definition with_status (r : HttpResponse) (code : Z) : HttpResponse :=
  {| status := code;
     body := if bodiless code then EmptyBody else body r |}.

Definition empty_response (code : Z) : HttpResponse :=
  {| status := code; body := EmptyBody |}.

(** A field of a JSON response body. *)
Definition field (r : HttpResponse) (k : str) : option value :=
  match body r with
  | Json (VDict d) => d !! k
  | _ => None
  end.

(** A field of an object nested in a value, as a client reads
    [body.transaction.amount]. *)
Definition subfield (o : option value) (k : str) : option value :=
  match o with
  | Some (VDict d) => d !! k
  | _ => None
  end.

(** ** Module-level configuration (app.py, lines 26-50) *)

Record Config := {
  basic_auth : option str;
  GHOSTPAY_COMPANY_ID : option str;
}.

(** Lines 26-42: the token is the base64 of the secret key followed by a
    colon, and [None] when the key is unset or empty. *)
Definition module_init (GHOSTPAY_SECRET_KEY company_id : option str)
  : result Config :=
  if opt_truthy GHOSTPAY_SECRET_KEY then
    let auth_string := format_opt GHOSTPAY_SECRET_KEY ++ py ":" in
    match utf8_encode auth_string with
    | Some bytes =>
        Ok {| basic_auth := Some (b64encode bytes);
              GHOSTPAY_COMPANY_ID := company_id |}
    | None => Raise UnicodeEncodeError
    end
  else Ok {| basic_auth := None; GHOSTPAY_COMPANY_ID := company_id |}.

Definition GHOSTPAY_URL : str :=
  py "https://api.ghostspaysv2.com/functions/v1/transactions".

Definition PRODUCT_NAME : str := py "Mentoria Venda Hoje - Acesso Vitalício".
Definition PRODUCT_PRICE : Z := 890.
Definition COMPANY_EMAIL : str := py "suporte.vendahoje@gmail.com".

(** ** Helper functions and views (app.py, lines 56-282) *)

Section App.
Context `{Runtime}.

(** [clean_document], lines 56-60: [re.sub(r'\D', '', document)] keeps the
    characters of class [\d]; it raises on an object that is not a string. *)
Definition clean_document (document : value) : result str :=
  if truthy document then
    match document with
    | VStr s => Ok (List.filter unicode_decimal s)
    | _ => Raise (TypeError op_re_sub (type_of document))
    end
  else Ok (py "00000000191").

(** [create_headers], lines 62-71. *)
Definition create_headers (cfg : Config) : gmap str str :=
  let headers : gmap str str :=
    list_to_map
      [(py "accept", py "application/json");
       (py "content-type", py "application/json");
       (py "authorization", py "Basic " ++ format_opt (basic_auth cfg))] in
  if opt_truthy (GHOSTPAY_COMPANY_ID cfg) then
    <[py "Company-ID" := format_opt (GHOSTPAY_COMPANY_ID cfg)]> headers
  else headers.

(** [create_test_qr_code], lines 73-75. *)
Definition create_test_qr_code : str :=
  py "00020101021226920014br.gov.bcb.pix2560api.ghostpay.io/qrcode/example5204000053039865802BR5913VENDAS+HOJE6009SAO+PAULO62070503***6304E2CA".

(** The request as [create_payment] sees it: the method and what
    [request.get_json()] gives, a value or an exception of Flask's. *)
Record Request := {
  method : Method;
  get_json : result value;
}.

Definition error_response (fields : list (str * value)) (code : Z)
  : HttpResponse :=
  with_status (jsonify ((py "error", VBool true) :: fields)) code.

(** [not customer.get('name') or not customer.get('email')], line 155. *)
Definition name_or_email_missing (customer : value) : M bool :=
  name ← lift (py_get customer (py "name") VNone);
  if negb (truthy name) then mret true
  else
    email ← lift (py_get customer (py "email") VNone);
    mret (negb (truthy email)).

(** The payload sent to the processor, lines 168-194. *)
Definition build_payload (w : World) (data customer amount : value)
  : M value :=
  name ← lift (py_get customer (py "name") (VStr (py "Cliente Venda Hoje")));
  email ← lift (py_get customer (py "email") (VStr COMPANY_EMAIL));
  phone ← lift (py_get customer (py "phone") (VStr (py "11999999999")));
  document ← lift (py_get customer (py "document") VNone);
  number ← lift (clean_document document);
  description ← lift (py_get data (py "description") (VStr PRODUCT_NAME));
  mret (VDict (list_to_map
    [(py "paymentMethod", VStr (py "PIX"));
     (py "customer", VDict (list_to_map
        [(py "name", name);
         (py "email", email);
         (py "phone", phone);
         (py "document", VDict (list_to_map
            [(py "number", VStr number);
             (py "type", VStr (py "CPF"))]))]));
     (py "items", VList [VDict (list_to_map
        [(py "title", VStr PRODUCT_NAME);
         (py "unitPrice", amount);
         (py "quantity", VInt 1);
         (py "externalRef",
          VStr (py "venda-hoje-" ++ str_of_int (time w)))])]);
     (py "amount", amount);
     (py "description", description);
     (py "metadata", VDict (list_to_map
        [(py "product", VStr (py "mentoria_venda_hoje"));
         (py "access_type", VStr (py "vitalicio"));
         (py "source", VStr (py "landing_page"))]));
     (py "pix", VDict ∅);
     (py "expiresInDays", VInt 1)])).

(** [pix_data.get('qrcode') or pix_data.get('qrCode') or
    pix_data.get('text')], line 209: the later lookups run only when the
    earlier ones gave a falsy value. *)
Definition extract_qr_code (pix_data : value) : M value :=
  a ← lift (py_get pix_data (py "qrcode") VNone);
  if truthy a then mret a
  else
    b ← lift (py_get pix_data (py "qrCode") VNone);
    if truthy b then mret b
    else lift (py_get pix_data (py "text") VNone).

(** Lines 204-235: what is made of the processor's answer. *)
Definition normalize_response (response : Response) : M HttpResponse :=
  if bool_decide (status_code response ∈ [200; 201]) then
    response_data ← lift (json response);
    pix_data ← lift (py_get response_data (py "pix") (VDict ∅));
    qr_code ← extract_qr_code pix_data;
    if truthy qr_code then
      id ← lift (py_get response_data (py "id") VNone);
      st ← lift (py_get response_data (py "status") VNone);
      amount ← lift (py_get response_data (py "amount") VNone);
      mret (jsonify
        [(py "success", VBool true);
         (py "transaction", VDict (list_to_map
            [(py "id", id); (py "status", st); (py "amount", amount)]));
         (py "pix", VDict (list_to_map
            [(py "qr_code", qr_code);
             (py "code", qr_code);
             (py "copy_paste", qr_code)]))])
    else
      mret (error_response
        [(py "message", VStr (py "QR Code não recebido"))] 500)
  else
    mret (error_response
      [(py "message",
        VStr (py "Erro na API GhostPay: "
              ++ str_of_int (status_code response)));
       (py "details",
        VStr (if truthy (VStr (text response)) then take 200 (text response)
              else py "Sem resposta"))]
      (status_code response)).

(** Lines 196-235: the call to the processor and the treatment of its
    answer. *)
Definition forward (cfg : Config) (w : World) (payload : value)
  : M HttpResponse :=
  response ← send w
    (requests_post GHOSTPAY_URL payload (create_headers cfg) 30);
  normalize_response response.

(** The [except] clause of [create_payment], lines 237-241. *)
Definition internal_error (e : exn) : HttpResponse :=
  error_response
    [(py "message", VStr (py "Erro interno: " ++ exn_text e))] 500.

(** The body of the [try] in [create_payment], lines 117-235. *)
Definition create_payment_body (cfg : Config) (w : World) (req : Request)
  : M HttpResponse :=
  if negb (opt_truthy (basic_auth cfg)) then
    let qr_code := create_test_qr_code in
    mret (jsonify
      [(py "success", VBool true);
       (py "test_mode", VBool true);
       (py "message", VStr (py "Modo de teste - Configure as chaves no Render"));
       (py "transaction", VDict (list_to_map
          [(py "id", VStr (py "test_" ++ str_of_int (time w)));
           (py "status", VStr (py "pending"));
           (py "amount", VInt PRODUCT_PRICE)]));
       (py "pix", VDict (list_to_map
          [(py "qr_code", VStr qr_code);
           (py "code", VStr qr_code);
           (py "copy_paste", VStr qr_code)]))])
  else
    data ← lift (get_json req);
    if negb (truthy data) then
      mret (error_response
        [(py "message", VStr (py "Dados não recebidos"))] 400)
    else
      has_customer ← lift (py_contains (py "customer") data);
      if has_customer : bool then
        customer ← lift (py_getitem data (py "customer"));
        amount ← lift (py_get data (py "amount") (VInt PRODUCT_PRICE));
        missing ← name_or_email_missing customer;
        if missing : bool then
          mret (error_response
            [(py "message", VStr (py "Nome e email são obrigatórios"))] 400)
        else
          too_small ← lift (py_lt_int amount 100);
          if too_small : bool then
            mret (error_response
              [(py "message", VStr (py "Valor mínimo é R$ 1,00"))] 400)
          else
            payload ← build_payload w data customer amount;
            forward cfg w payload
      else
        mret (error_response
          [(py "message", VStr (py "Estrutura de dados inválida"))] 400).

(** [create_payment], lines 110-241. *)
Definition create_payment (cfg : Config) (w : World) (req : Request)
  : HttpResponse * list Call :=
  match method req with
  | OPTIONS => (empty_response 200, [])
  | _ =>
      try_except (create_payment_body cfg w req) internal_error
  end.

(** The body of the [try] in [check_payment], lines 250-276. *)
Definition check_payment_body (cfg : Config) (w : World)
    (transaction_id : str) : M HttpResponse :=
  if negb (opt_truthy (basic_auth cfg)) then
    mret (jsonify
      [(py "success", VBool true);
       (py "test_mode", VBool true);
       (py "status", VStr (py "paid"));
       (py "message", VStr (py "Modo de teste - Pagamento simulado"))])
  else
    response ← send w
      (requests_get (GHOSTPAY_URL ++ py "/" ++ transaction_id)
         (create_headers cfg) 30);
    if bool_decide (status_code response = 200) then
      data ← lift (json response);
      st ← lift (py_get data (py "status") VNone);
      paid_at ← lift (py_get data (py "paidAt") VNone);
      mret (jsonify
        [(py "success", VBool true);
         (py "status", st);
         (py "paid_at", paid_at);
         (py "transaction", data)])
    else
      mret (error_response
        [(py "message", VStr (py "Transação não encontrada"))] 404).

(** [check_payment], lines 243-282. *)
Definition check_payment (cfg : Config) (w : World) (meth : Method)
    (transaction_id : str) : HttpResponse * list Call :=
  match meth with
  | OPTIONS => (empty_response 200, [])
  | _ =>
      try_except (check_payment_body cfg w transaction_id)
        (fun e => error_response
           [(py "message", VStr (py "Erro: " ++ exn_text e))] 500)
  end.

End App.

(** ** A reference runtime and sample inputs *)

(** A runtime to evaluate examples in: the [\d] class restricted to ASCII
    (what [re.ASCII] selects; inputs of the examples are ASCII), and
    CPython's wording of the exceptions the model raises. *)
Definition ascii_digit (c : codepoint) : bool :=
  (48 <=? c)%N && (c <=? 57)%N.

Definition type_name (t : pytype) : str :=
  match t with
  | NoneType => py "NoneType"
  | bool_t => py "bool"
  | int_t => py "int"
  | float_t => py "float"
  | str_t => py "str"
  | list_t => py "list"
  | dict_t => py "dict"
  end.

Definition cpython_exn_text (e : exn) : str :=
  match e with
  | TypeError op_contains t =>
      py "argument of type '" ++ type_name t ++ py "' is not iterable"
  | TypeError op_subscript list_t =>
      py "list indices must be integers or slices, not str"
  | TypeError op_subscript str_t =>
      py "string indices must be integers, not 'str'"
  | TypeError op_subscript t =>
      py "'" ++ type_name t ++ py "' object is not subscriptable"
  | TypeError op_less t =>
      py "'<' not supported between instances of '" ++ type_name t
        ++ py "' and 'int'"
  | TypeError op_re_sub t =>
      py "expected string or bytes-like object, got '" ++ type_name t
        ++ py "'"
  | AttributeError t attr =>
      py "'" ++ type_name t ++ py "' object has no attribute '" ++ attr
        ++ py "'"
  | KeyError key => py "'" ++ key ++ py "'"
  | UnicodeEncodeError => py "'utf-8' codec can't encode character"
  | Raised msg => msg
  end.

Definition ascii_runtime : Runtime :=
  {| unicode_decimal := ascii_digit;
     unicode_decimal_ascii := fun c _ => eq_refl;
     exn_text := cpython_exn_text |}.

(** A process started without credentials, and one started with the secret
    key [sk_live] and no company id. *)
Definition test_config : Config :=
  {| basic_auth := None; GHOSTPAY_COMPANY_ID := None |}.

Definition live_config : Config :=
  {| basic_auth := Some (py "c2tfbGl2ZTo="); GHOSTPAY_COMPANY_ID := None |}.

(** A processor that answers every call with the given response. *)
Definition answering (now : Z) (response : Response) : World :=
  {| time := now; requests := fun _ => Ok response |}.

Definition ana_fields : list (str * value) :=
  [(py "name", VStr (py "Ana")); (py "email", VStr (py "a@x.com"))].

Definition ana : value := VDict (list_to_map ana_fields).

Definition post (fields : list (str * value)) : Request :=
  {| method := POST; get_json := Ok (VDict (list_to_map fields)) |}.

(** The processor is down: every call gets a 500 with an empty body. *)
Definition outage : Response :=
  {| status_code := 500; text := [];
     json := Raise (Raised (py "Expecting value: line 1 column 1 (char 0)")) |}.

Definition processor_down : World := answering 1700000000 outage.

(** A JSON string literal, quotes included. *)
Definition jstr (s : string) : str := [34%N] ++ py s ++ [34%N].

(** The processor accepts the transaction and returns both spellings of
    the QR field. *)
Definition accepted_fields : list (str * value) :=
  [(py "id", VStr (py "tx_1"));
   (py "status", VStr (py "waiting_payment"));
   (py "amount", VInt 890);
   (py "pix", VDict (list_to_map
      [(py "qrcode", VStr (py "PIX-A")); (py "qrCode", VStr (py "PIX-B"))]))].

Definition acceptance : Response :=
  {| status_code := 201;
     text := py "{" ++ jstr "id" ++ py ":" ++ jstr "tx_1" ++ py ","
             ++ jstr "status" ++ py ":" ++ jstr "waiting_payment" ++ py ","
             ++ jstr "amount" ++ py ":890,"
             ++ jstr "pix" ++ py ":{" ++ jstr "qrcode" ++ py ":"
             ++ jstr "PIX-A" ++ py "," ++ jstr "qrCode" ++ py ":"
             ++ jstr "PIX-B" ++ py "}}";
     json := Ok (VDict (list_to_map accepted_fields)) |}.

Definition processor_accepts : World := answering 1700000000 acceptance.

(** The processor refuses the transaction with a short plain-text body. *)
Definition rejection : Response :=
  {| status_code := 422; text := py "Unprocessable Entity";
     json := Raise (Raised (py "Expecting value: line 1 column 1 (char 0)")) |}.

Definition processor_rejects : World := answering 1700000000 rejection.

(** The processor answers 204 No Content. *)
Definition no_content : Response :=
  {| status_code := 204; text := [];
     json := Raise (Raised (py "Expecting value: line 1 column 1 (char 0)")) |}.

Definition processor_no_content : World := answering 1700000000 no_content.

(** The processor answers a status lookup with 200 and a body that is
    JSON but not an object: the array [[1]]. *)
Definition odd_body : Response :=
  {| status_code := 200; text := py "[1]"; json := Ok (VList [VInt 1]) |}.

Definition processor_odd_body : World := answering 1700000000 odd_body.

(** The processor reports a transaction as paid. *)
Definition paid_fields : list (str * value) :=
  [(py "id", VStr (py "abc123"));
   (py "status", VStr (py "paid"));
   (py "paidAt", VStr (py "2024-05-01T12:00:00Z"))].

Definition paid : Response :=
  {| status_code := 200;
     text := py "{" ++ jstr "id" ++ py ":" ++ jstr "abc123" ++ py ","
             ++ jstr "status" ++ py ":" ++ jstr "paid" ++ py ","
             ++ jstr "paidAt" ++ py ":" ++ jstr "2024-05-01T12:00:00Z"
             ++ py "}";
     json := Ok (VDict (list_to_map paid_fields)) |}.

Definition processor_paid : World := answering 1700000000 paid.

(** ** Notions used to state the properties *)

(** A computation that makes no outbound call. *)
Definition silent {A} (m : M A) : Prop :=
  exists r, forall log, m log = (r, log).

(** The candidates for the QR code in the order line 209 tries them. *)
Definition qr_candidates (pix : dict) : list value :=
  [default VNone (pix !! py "qrcode");
   default VNone (pix !! py "qrCode");
   default VNone (pix !! py "text")].

(** A parsed body that lacks [customer.name] or [customer.email]: nothing
    at all, an object without [customer], or a [customer] object whose
    name or email is absent or empty. *)
Definition lacks_name_or_email (data : value) : Prop :=
  match data with
  | VDict d =>
      match d !! py "customer" with
      | None => True
      | Some (VDict c) =>
          truthy (default VNone (c !! py "name")) = false \/
          truthy (default VNone (c !! py "email")) = false
      | Some _ => False
      end
  | _ => truthy data = false
  end.

(** Values that [<] can compare with an int. *)
Definition comparable_with_int (v : value) : bool :=
  match v with
  | VBool _ | VInt _ | VFloat _ => true
  | _ => false
  end.

(** ** The remaining views and the response hook *)

(** [f"{n/100:.2f}"] for an int [n]: the quotient is the double nearest to
    n/100, and printing it with two decimals gives back the exact decimal
    as long as [n] is far below 2^53, which the price in cents is. *)
Definition two_digits (n : Z) : str :=
  (if n <? 10 then py "0" else []) ++ str_of_int n.

Definition format_hundredths (n : Z) : str :=
  (if n <? 0 then py "-" else [])
  ++ str_of_int (Z.abs n / 100) ++ py "." ++ two_digits (Z.abs n mod 100).

(** [health_check], lines 93-108.  [timestamp] is what
    [time.strftime("%Y-%m-%d %H:%M:%S")] returns. *)
Definition health_check (cfg : Config) (timestamp : str) (meth : Method)
  : HttpResponse :=
  match meth with
  | OPTIONS => empty_response 200
  | _ =>
      jsonify
        [(py "status", VStr (py "OK"));
         (py "service", VStr (py "Venda Hoje API"));
         (py "version", VStr (py "1.0.0"));
         (py "product", VStr PRODUCT_NAME);
         (py "price", VStr (py "R$ " ++ format_hundredths PRODUCT_PRICE));
         (py "environment",
          VStr (if opt_truthy (basic_auth cfg) then py "production"
                else py "development"));
         (py "timestamp", VStr timestamp);
         (py "cors", VStr (py "enabled"))]
  end.

(** [home], lines 284-302. *)
Definition home (meth : Method) : HttpResponse :=
  match meth with
  | OPTIONS => empty_response 200
  | _ =>
      jsonify
        [(py "api", VStr (py "Venda Hoje Checkout API"));
         (py "version", VStr (py "1.0.0"));
         (py "status", VStr (py "online"));
         (py "product", VStr PRODUCT_NAME);
         (py "price", VStr (py "R$ " ++ format_hundredths PRODUCT_PRICE));
         (py "endpoints", VDict (list_to_map
            [(py "POST /create-payment", VStr (py "Criar pagamento PIX"));
             (py "GET /check-payment/<id>", VStr (py "Verificar status"));
             (py "GET /health", VStr (py "Status da API"))]));
         (py "docs", VStr (py "https://github.com/Joseph001479/venda-hoje"))]
  end.

(** A response on its way out: what the view returned and the header list
    Flask keeps for it.  [headers.add] appends a pair, it does not replace
    an existing one. *)
Record FlaskResponse := {
  returned : HttpResponse;
  response_headers : list (str * str);
}.

Definition headers_add (r : FlaskResponse) (k v : str) : FlaskResponse :=
  {| returned := returned r;
     response_headers := response_headers r ++ [(k, v)] |}.

(** [after_request], lines 81-87. *)
Definition after_request (response : FlaskResponse) : FlaskResponse :=
  let response :=
    headers_add response (py "Access-Control-Allow-Origin") (py "*") in
  let response :=
    headers_add response (py "Access-Control-Allow-Headers")
      (py "Content-Type,Authorization") in
  let response :=
    headers_add response (py "Access-Control-Allow-Methods")
      (py "GET,PUT,POST,DELETE,OPTIONS") in
  response.

(** The values a header list holds under a name. *)
Definition header_values (hs : list (str * str)) (k : str) : list str :=
  map snd (List.filter (fun kv => bool_decide (kv.1 = k)) hs).

(** ** Reading an outbound call *)

(** The JSON payload of a call ([None] for a GET), its headers, URL and
    timeout. *)
Definition call_payload (c : Call) : option value :=
  match c with
  | requests_post _ payload _ _ => Some payload
  | requests_get _ _ _ => None
  end.

Definition call_headers (c : Call) : gmap str str :=
  match c with
  | requests_post _ _ hs _ => hs
  | requests_get _ hs _ => hs
  end.

Definition call_url (c : Call) : str :=
  match c with
  | requests_post url _ _ _ => url
  | requests_get url _ _ => url
  end.

Definition call_timeout (c : Call) : Z :=
  match c with
  | requests_post _ _ _ t => t
  | requests_get _ _ t => t
  end.

(** What lines 168-194 build once the lookups on the body [d] and the
    customer [cust] are resolved and the document was cleaned to
    [number]. *)
Definition forwarded_payload (w : World) (d cust : dict) (number : str)
  : value :=
  VDict (list_to_map
    [(py "paymentMethod", VStr (py "PIX"));
     (py "customer", VDict (list_to_map
        [(py "name",
          default (VStr (py "Cliente Venda Hoje")) (cust !! py "name"));
         (py "email", default (VStr COMPANY_EMAIL) (cust !! py "email"));
         (py "phone",
          default (VStr (py "11999999999")) (cust !! py "phone"));
         (py "document", VDict (list_to_map
            [(py "number", VStr number);
             (py "type", VStr (py "CPF"))]))]));
     (py "items", VList [VDict (list_to_map
        [(py "title", VStr PRODUCT_NAME);
         (py "unitPrice", default (VInt PRODUCT_PRICE) (d !! py "amount"));
         (py "quantity", VInt 1);
         (py "externalRef",
          VStr (py "venda-hoje-" ++ str_of_int (time w)))])]);
     (py "amount", default (VInt PRODUCT_PRICE) (d !! py "amount"));
     (py "description", default (VStr PRODUCT_NAME) (d !! py "description"));
     (py "metadata", VDict (list_to_map
        [(py "product", VStr (py "mentoria_venda_hoje"));
         (py "access_type", VStr (py "vitalicio"));
         (py "source", VStr (py "landing_page"))]));
     (py "pix", VDict ∅);
     (py "expiresInDays", VInt 1)]).

(** [o[i]] for a list nested in a value. *)
Definition element (o : option value) (i : nat) : option value :=
  match o with
  | Some (VList l) => l !! i
  | _ => None
  end.

(** The two shapes a JSON answer of [create_payment] takes: a success
    carrying one truthy QR value under its three aliases, or an error
    carrying a message. *)
Definition success_shape (r : HttpResponse) : Prop :=
  status r = 200 /\
  field r (py "success") = Some (VBool true) /\
  field r (py "error") = None /\
  exists q,
    truthy q = true /\
    subfield (field r (py "pix")) (py "qr_code") = Some q /\
    subfield (field r (py "pix")) (py "code") = Some q /\
    subfield (field r (py "pix")) (py "copy_paste") = Some q.

Definition error_shape (r : HttpResponse) (code : Z) : Prop :=
  status r = code /\
  field r (py "error") = Some (VBool true) /\
  field r (py "success") = None /\
  field r (py "test_mode") = None /\
  exists m, field r (py "message") = Some (VStr m).

(** The answer that passes a refusal of the processor on: its status,
    and the error body unless that status is one served without body. *)
Definition refusal_shape (r : HttpResponse) (code : Z) : Prop :=
  status r = code /\
  field r (py "success") = None /\
  field r (py "test_mode") = None /\
  if bodiless code then body r = EmptyBody else error_shape r code.

(** The ways a run of [create_payment] can end, with the calls made. *)
Inductive outcome (cfg : Config) (w : World)
  : HttpResponse -> list Call -> Prop :=
| synthetic r :
    opt_truthy (basic_auth cfg) = false ->
    success_shape r -> field r (py "test_mode") = Some (VBool true) ->
    outcome cfg w r []
| rejected r :
    opt_truthy (basic_auth cfg) = true ->
    error_shape r 400 ->
    outcome cfg w r []
| crashed r calls :
    opt_truthy (basic_auth cfg) = true ->
    error_shape r 500 ->
    outcome cfg w r calls
| normalized r c response :
    opt_truthy (basic_auth cfg) = true ->
    requests w c = Ok response ->
    status_code response ∈ [200; 201] ->
    success_shape r -> field r (py "test_mode") = None ->
    outcome cfg w r [c]
| refused r c response :
    opt_truthy (basic_auth cfg) = true ->
    requests w c = Ok response ->
    status_code response ∉ [200; 201] ->
    refusal_shape r (status_code response) ->
    outcome cfg w r [c].

(** A request that passes validation, with a null phone, and the call it
    leads to. *)
Definition sample_fields : list (str * value) :=
  [(py "customer", VDict (list_to_map
      [(py "name", VStr (py "Ana")); (py "email", VStr (py "a@x.com"));
       (py "phone", VNone); (py "document", VStr (py "123.456.789-09"))]));
   (py "amount", VInt 1500)].

Definition sample_request : Request := post sample_fields.

Definition sample_call : Call :=
  requests_post GHOSTPAY_URL
    (forwarded_payload processor_accepts (list_to_map sample_fields)
       (list_to_map
          [(py "name", VStr (py "Ana")); (py "email", VStr (py "a@x.com"));
           (py "phone", VNone); (py "document", VStr (py "123.456.789-09"))])
       (py "12345678909"))
    (create_headers live_config) 30.

(** A processor that cannot be reached: every call raises. *)
Definition processor_unreachable : World :=
  {| time := 1700000000;
     requests := fun _ => Raise (Raised (py "Read timed out.")) |}.



(** ** Properties *)

Arguments py : simpl never.

(** *** Strings and documents *)

Lemma ascii_digit_decimal `{Runtime} (c : codepoint) :
  ascii_digit c = true -> unicode_decimal c = true.
Proof.
  intros Hc. rewrite unicode_decimal_ascii; [exact Hc|].
  unfold ascii_digit in Hc. apply andb_prop in Hc as [_ Hle].
  apply N.leb_le in Hle. lia.
Qed.

Lemma filter_keeps_all {A} (f : A -> bool) (l : list A) :
  forallb f l = true -> List.filter f l = l.
Proof.
  induction l as [|a l IH]; simpl; [reflexivity|].
  intros Hall. apply andb_prop in Hall as [Ha Hl].
  rewrite Ha, IH by assumption. reflexivity.
Qed.

Lemma filter_drops_all {A} (f : A -> bool) (l : list A) :
  existsb f l = false -> List.filter f l = [].
Proof.
  induction l as [|a l IH]; simpl; [reflexivity|].
  intros Hnone. apply orb_false_elim in Hnone as [Ha Hl].
  rewrite Ha. auto.
Qed.

Lemma filter_satisfies {A} (f : A -> bool) (l : list A) :
  forallb f (List.filter f l) = true.
Proof.
  induction l as [|a l IH]; simpl; [reflexivity|].
  destruct (f a) eqn:Ha; simpl; [rewrite Ha|]; assumption.
Qed.

Lemma clean_document_str `{Runtime} (s : str) :
  clean_document (VStr s) =
  Ok (match s with
      | [] => py "00000000191"
      | _ :: _ => List.filter unicode_decimal s
      end).
Proof. destruct s; reflexivity. Qed.

(** Whatever the runtime's digit table, a string of ASCII letters has no
    character of class [\d] and is cleaned to the empty string. *)
Lemma clean_document_letters_blank `{Runtime} :
  clean_document (VStr (py "abc")) = Ok [].
Proof.
  rewrite clean_document_str. change (py "abc") with [97%N; 98%N; 99%N].
  cbn [List.filter]. rewrite !unicode_decimal_ascii by reflexivity.
  reflexivity.
Qed.

(** The placeholder is made of eleven ASCII digits. *)
Lemma placeholder_eleven_digits :
  length (py "00000000191") = 11%nat /\
  forallb ascii_digit (py "00000000191") = true.
Proof. split; reflexivity. Qed.

(** *** Configuration *)

Lemma b64encode_nonempty (bs : list N) : bs <> [] -> b64encode bs <> [].
Proof. destruct bs as [|a [|b [|c rest]]]; simpl; congruence. Qed.

Lemma utf8_encode_nonempty (s : str) (bs : list N) :
  utf8_encode s = Some bs -> s <> [] -> bs <> [].
Proof.
  destruct s as [|c s]; [congruence|]. simpl.
  destruct (utf8_encode_char c) as [cs|] eqn:Hc; [|discriminate].
  destruct (utf8_encode s) as [rest|]; [|discriminate].
  intros [= <-] _. unfold utf8_encode_char in Hc.
  repeat case_match; simplify_eq; discriminate.
Qed.

(** The token is absent exactly when the secret key is unset or empty:
    its nullity is the test-mode signal. *)
Lemma module_init_basic_auth (key company : option str) (cfg : Config) :
  module_init key company = Ok cfg ->
  opt_truthy (basic_auth cfg) = opt_truthy key /\
  GHOSTPAY_COMPANY_ID cfg = company.
Proof.
  unfold module_init. destruct (opt_truthy key) eqn:Hkey.
  - destruct (utf8_encode _) as [bs|] eqn:Hbs; [|discriminate].
    intros [= <-]. simpl. split; [|reflexivity].
    apply utf8_encode_nonempty in Hbs.
    + apply b64encode_nonempty in Hbs. destruct (b64encode bs); congruence.
    + destruct (format_opt key); discriminate.
  - intros [= <-]. split; reflexivity.
Qed.

(** The sample configuration is the one a process gets from the secret
    key [sk_live]. *)
Example module_init_sk_live :
  module_init (Some (py "sk_live")) None = Ok live_config /\
  module_init None None = Ok test_config /\
  module_init (Some []) None = Ok test_config.
Proof. repeat split; reflexivity. Qed.

(** *** The handler monad *)

Lemma lift_run {A} (r : result A) (log : list Call) : lift r log = (r, log).
Proof. reflexivity. Qed.

Lemma bind_ok {A B} (m : M A) (f : A -> M B) (a : A) (log log' : list Call) :
  m log = (Ok a, log') -> (m ≫= f) log = f a log'.
Proof. intros Hm. unfold mbind, M_bind. rewrite Hm. reflexivity. Qed.

Lemma bind_raise {A B} (m : M A) (f : A -> M B) (e : exn)
    (log log' : list Call) :
  m log = (Raise e, log') -> (m ≫= f) log = (Raise e, log').
Proof. intros Hm. unfold mbind, M_bind. rewrite Hm. reflexivity. Qed.

(** *** Test mode *)

Lemma create_payment_test_mode `{Runtime} (cfg : Config) (w : World)
    (req : Request) :
  method req = POST ->
  opt_truthy (basic_auth cfg) = false ->
  create_payment cfg w req =
  (jsonify
     [(py "success", VBool true);
      (py "test_mode", VBool true);
      (py "message", VStr (py "Modo de teste - Configure as chaves no Render"));
      (py "transaction", VDict (list_to_map
         [(py "id", VStr (py "test_" ++ str_of_int (time w)));
          (py "status", VStr (py "pending"));
          (py "amount", VInt PRODUCT_PRICE)]));
      (py "pix", VDict (list_to_map
         [(py "qr_code", VStr create_test_qr_code);
          (py "code", VStr create_test_qr_code);
          (py "copy_paste", VStr create_test_qr_code)]))], []).
Proof.
  intros Hpost Htest. unfold create_payment, create_payment_body.
  rewrite Hpost, Htest. reflexivity.
Qed.

(** C1, as amended: in test mode POST /create-payment answers 200 with
    [transaction.amount] equal to the default product price, 890,
    whatever the request carries; a request for 890 therefore gets 890
    back. *)
Theorem test_mode_amount_is_product_price `{Runtime} (cfg : Config)
    (w : World) (req : Request) :
  method req = POST ->
  opt_truthy (basic_auth cfg) = false ->
  let r := (create_payment cfg w req).1 in
  status r = 200 /\
  subfield (field r (py "transaction")) (py "amount") = Some (VInt 890).
Proof.
  intros Hpost Htest r. subst r.
  rewrite create_payment_test_mode by assumption. split; reflexivity.
Qed.

Lemma test_mode_amount_is_product_price_witness :
  let req := post [(py "customer", ana); (py "amount", VInt 890)] in
  let r := (create_payment (H:=ascii_runtime) test_config processor_down req).1 in
  status r = 200 /\
  subfield (field r (py "transaction")) (py "amount") = Some (VInt 890).
Proof.
  apply (test_mode_amount_is_product_price (H:=ascii_runtime)); reflexivity.
Defined.

(** C1 as stated fails: a test-mode request for 500 is answered with 890,
    not with the amount the client supplied. *)
Lemma test_mode_ignores_requested_amount :
  let requested := VInt 500 in
  let req := post [(py "customer", ana); (py "amount", requested)] in
  let r := (create_payment (H:=ascii_runtime) test_config processor_down req).1 in
  subfield (field r (py "transaction")) (py "amount") = Some (VInt 890) /\
  subfield (field r (py "transaction")) (py "amount") <> Some requested.
Proof. split; [reflexivity|]. vm_compute. discriminate. Qed.

(** C2, as amended: an absent or empty document gives the placeholder
    00000000191, and a non-empty document string gives exactly its
    characters of class [\d], in order; that result is blank precisely
    when the string holds no such character. *)
Theorem clean_document_digits_or_placeholder `{Runtime} (s : str) :
  clean_document VNone = Ok (py "00000000191") /\
  clean_document (VStr []) = Ok (py "00000000191") /\
  clean_document (VStr s) =
    Ok (match s with
        | [] => py "00000000191"
        | _ :: _ => List.filter unicode_decimal s
        end) /\
  forallb unicode_decimal (List.filter unicode_decimal s) = true /\
  (List.filter unicode_decimal s = [] <-> existsb unicode_decimal s = false).
Proof.
  repeat split; try reflexivity.
  - apply clean_document_str.
  - apply filter_satisfies.
  - intros Hnil. induction s as [|c s IH]; simpl in *; [reflexivity|].
    destruct (unicode_decimal c); [discriminate|]. auto.
  - apply filter_drops_all.
Qed.

(** C2 as stated fails: a document present but without any digit is
    cleaned to the blank string. *)
Lemma clean_document_can_be_blank :
  clean_document (H:=ascii_runtime) (VStr (py "abc")) = Ok [].
Proof. reflexivity. Qed.

(** C7: a non-empty string made only of digit characters is returned
    unchanged, and an empty or absent document gives the eleven-digit
    placeholder. *)
Theorem clean_document_idempotent_on_clean `{Runtime} (s : str) :
  s <> [] ->
  forallb unicode_decimal s = true \/ forallb ascii_digit s = true ->
  clean_document (VStr s) = Ok s /\
  clean_document (VStr []) = Ok (py "00000000191") /\
  clean_document VNone = Ok (py "00000000191") /\
  length (py "00000000191") = 11%nat.
Proof.
  intros Hne Hdigits. repeat split.
  rewrite clean_document_str. destruct s as [|c s]; [congruence|].
  f_equal. apply filter_keeps_all. destruct Hdigits as [Hd|Hd]; [exact Hd|].
  apply forallb_forall. intros x Hx. apply ascii_digit_decimal.
  eapply forallb_forall in Hd; eassumption.
Qed.

Lemma clean_document_idempotent_on_clean_witness :
  clean_document (H:=ascii_runtime) (VStr (py "12345678909")) =
    Ok (py "12345678909") /\
  clean_document (H:=ascii_runtime) (VStr []) = Ok (py "00000000191") /\
  clean_document (H:=ascii_runtime) VNone = Ok (py "00000000191") /\
  length (py "00000000191") = 11%nat.
Proof.
  apply (clean_document_idempotent_on_clean (H:=ascii_runtime) (py "12345678909")).
  - discriminate.
  - right. reflexivity.
Defined.

(** C4: a process started without a secret key answers every POST
    /create-payment with success:true and test_mode:true, a transaction id
    that is test_ followed by the Unix time, and makes no outbound call. *)
Theorem test_mode_synthetic_success `{Runtime} (key company : option str)
    (cfg : Config) (w : World) (req : Request) :
  module_init key company = Ok cfg ->
  opt_truthy key = false ->
  method req = POST ->
  let r := (create_payment cfg w req).1 in
  let calls := (create_payment cfg w req).2 in
  status r = 200 /\
  field r (py "success") = Some (VBool true) /\
  field r (py "test_mode") = Some (VBool true) /\
  subfield (field r (py "transaction")) (py "id") =
    Some (VStr (py "test_" ++ str_of_int (time w))) /\
  startswith (py "test_") (py "test_" ++ str_of_int (time w)) = true /\
  calls = [].
Proof.
  intros Hinit Hkey Hpost r calls. subst r calls.
  apply module_init_basic_auth in Hinit as [Hauth _].
  rewrite Hkey in Hauth.
  rewrite create_payment_test_mode by assumption.
  repeat split; reflexivity.
Qed.

Lemma test_mode_synthetic_success_witness :
  let req := post [(py "customer", ana); (py "amount", VInt 890)] in
  let r := (create_payment (H:=ascii_runtime) test_config processor_down req).1 in
  let calls :=
    (create_payment (H:=ascii_runtime) test_config processor_down req).2 in
  status r = 200 /\
  field r (py "success") = Some (VBool true) /\
  field r (py "test_mode") = Some (VBool true) /\
  subfield (field r (py "transaction")) (py "id") =
    Some (VStr (py "test_" ++ str_of_int 1700000000)) /\
  startswith (py "test_") (py "test_" ++ str_of_int 1700000000) = true /\
  calls = [].
Proof.
  apply (test_mode_synthetic_success (H:=ascii_runtime) None None); reflexivity.
Defined.

(** *** Computations that make no call *)

Lemma silent_ret {A} (a : A) : silent (mret a).
Proof. eexists. intros log. reflexivity. Qed.

Lemma silent_lift {A} (r : result A) : silent (lift r).
Proof. eexists. intros log. reflexivity. Qed.

Lemma silent_bind {A B} (m : M A) (f : A -> M B) :
  silent m -> (forall a, silent (f a)) -> silent (m ≫= f).
Proof.
  intros [[a|e] Hm] Hf.
  - destruct (Hf a) as [r' Hr']. exists r'. intros log.
    erewrite bind_ok by apply Hm. apply Hr'.
  - exists (Raise e). intros log. erewrite bind_raise by apply Hm.
    reflexivity.
Qed.

Lemma silent_if {A} (b : bool) (m1 m2 : M A) :
  silent m1 -> silent m2 -> silent (if b then m1 else m2).
Proof. destruct b; auto. Qed.

Create HintDb silent.
#[local] Hint Resolve silent_ret silent_lift : silent.
#[local] Hint Extern 2 (silent (_ ≫= _)) =>
  apply silent_bind; [|intros ?] : silent.
#[local] Hint Extern 2 (silent (if _ then _ else _)) =>
  apply silent_if : silent.

Lemma name_or_email_missing_silent (customer : value) :
  silent (name_or_email_missing customer).
Proof. unfold name_or_email_missing. auto 10 with silent. Qed.

Lemma build_payload_silent `{Runtime} (w : World)
    (data customer amount : value) :
  silent (build_payload w data customer amount).
Proof. unfold build_payload. auto 20 with silent. Qed.

Lemma extract_qr_code_silent (pix_data : value) :
  silent (extract_qr_code pix_data).
Proof. unfold extract_qr_code. auto 10 with silent. Qed.

Lemma normalize_response_silent (response : Response) :
  silent (normalize_response response).
Proof.
  unfold normalize_response.
  pose proof extract_qr_code_silent. auto 20 with silent.
Qed.

(** *** The shape of a run of [create_payment] *)

Ltac stop_early := left; eexists; reflexivity.

(** Either the body ends without any call, or it reaches the call to the
    processor with some payload. *)
Lemma create_payment_body_cases `{Runtime} (cfg : Config) (w : World)
    (req : Request) :
  (exists r, create_payment_body cfg w req [] = (r, [])) \/
  (exists payload,
     create_payment_body cfg w req [] = forward cfg w payload []).
Proof.
  unfold create_payment_body.
  destruct (negb (opt_truthy (basic_auth cfg))); [stop_early|].
  destruct (get_json req) as [data|e]; [|stop_early].
  erewrite bind_ok by reflexivity.
  destruct (negb (truthy data)); [stop_early|].
  destruct (py_contains (py "customer") data) as [[|]|e]; [|stop_early..].
  erewrite bind_ok by reflexivity.
  destruct (py_getitem data (py "customer")) as [customer|e]; [|stop_early].
  erewrite bind_ok by reflexivity.
  destruct (py_get data (py "amount") (VInt PRODUCT_PRICE)) as [amount|e];
    [|stop_early].
  erewrite bind_ok by reflexivity.
  destruct (name_or_email_missing_silent customer) as [[[|]|e] Hmiss];
    [erewrite bind_ok by apply Hmiss; stop_early
    |erewrite bind_ok by apply Hmiss
    |erewrite bind_raise by apply Hmiss; stop_early].
  destruct (py_lt_int amount 100) as [[|]|e]; [stop_early| |stop_early].
  erewrite bind_ok by reflexivity.
  destruct (build_payload_silent w data customer amount)
    as [[payload|e] Hpay];
    [|erewrite bind_raise by apply Hpay; stop_early].
  erewrite bind_ok by apply Hpay.
  right. exists payload. reflexivity.
Qed.

(** A forwarded request logs exactly its call, and its outcome is what
    [normalize_response] makes of the processor's answer. *)
Lemma forward_run `{Runtime} (cfg : Config) (w : World) (payload : value) :
  let c := requests_post GHOSTPAY_URL payload (create_headers cfg) 30 in
  forward cfg w payload [] =
  (match requests w c with
   | Ok response => (normalize_response response []).1
   | Raise e => Raise e
   end, [c]).
Proof.
  intros c. unfold forward, mbind, M_bind, send. fold c. simpl.
  destruct (requests w c) as [response|e]; [|reflexivity].
  destruct (normalize_response_silent response) as [r Hr].
  rewrite !Hr. reflexivity.
Qed.

(** When the body made the call [c] and the processor answered it, the
    view returns what [normalize_response] makes of the answer. *)
Lemma create_payment_forwarded `{Runtime} (cfg : Config) (w : World)
    (req : Request) (c : Call) (response : Response) :
  method req = POST ->
  (create_payment cfg w req).2 = [c] ->
  requests w c = Ok response ->
  (create_payment cfg w req).1 =
  (try_except (normalize_response response) internal_error).1.
Proof.
  intros Hpost Hlog Hanswer. revert Hlog.
  unfold create_payment. rewrite Hpost. unfold try_except.
  destruct (create_payment_body_cases cfg w req) as [[r ->]|[payload ->]].
  - destruct r; discriminate.
  - rewrite forward_run. cbv zeta.
    set (c' := requests_post GHOSTPAY_URL payload (create_headers cfg) 30).
    intros Hlog. assert (c = c') as <-.
    { destruct (requests w c') as [resp|e];
        [destruct (normalize_response resp []).1|]; cbn [snd] in Hlog;
        congruence. }
    rewrite Hanswer.
    destruct (normalize_response response []) as [[r|e] log]; reflexivity.
Qed.

(** *** Validation *)

Ltac run_view :=
  unfold try_except, name_or_email_missing, mbind, M_bind, mret, M_ret, lift;
  cbn [negb fst snd py_get py_contains py_getitem from_option id type_of
       error_response with_status status body].

Ltac answered := repeat split; reflexivity.

(** How the view runs once credentials are set and a body was parsed. *)
Lemma create_payment_live `{Runtime} (cfg : Config) (w : World)
    (req : Request) (data : value) :
  method req = POST ->
  opt_truthy (basic_auth cfg) = true ->
  get_json req = Ok data ->
  create_payment cfg w req =
  try_except
    (if negb (truthy data) then
       mret (error_response
         [(py "message", VStr (py "Dados não recebidos"))] 400)
     else
       has_customer ← lift (py_contains (py "customer") data);
       if has_customer : bool then
         customer ← lift (py_getitem data (py "customer"));
         amount ← lift (py_get data (py "amount") (VInt PRODUCT_PRICE));
         missing ← name_or_email_missing customer;
         if missing : bool then
           mret (error_response
             [(py "message", VStr (py "Nome e email são obrigatórios"))] 400)
         else
           too_small ← lift (py_lt_int amount 100);
           if too_small : bool then
             mret (error_response
               [(py "message", VStr (py "Valor mínimo é R$ 1,00"))] 400)
           else
             payload ← build_payload w data customer amount;
             forward cfg w payload
       else
         mret (error_response
           [(py "message", VStr (py "Estrutura de dados inválida"))] 400))
    internal_error.
Proof.
  intros Hpost Hlive Hjson. unfold create_payment, create_payment_body.
  rewrite Hpost, Hlive, Hjson. reflexivity.
Qed.

Lemma dict_with_key_truthy (d : dict) (k : str) (v : value) :
  d !! k = Some v -> truthy (VDict d) = true.
Proof.
  intros Hk. simpl. rewrite bool_decide_eq_false_2; [reflexivity|].
  intros ->. rewrite lookup_empty in Hk. discriminate.
Qed.

(** C3, as amended: a POST whose parsed body is empty, or has no customer,
    or has a customer object without a non-empty name and email, makes no
    call to the processor; with credentials configured it is answered 400
    with the error flag set, and in test mode it gets the synthetic 200
    success like every other request. *)
Theorem missing_name_or_email_rejected `{Runtime} (cfg : Config) (w : World)
    (req : Request) (data : value) :
  method req = POST ->
  get_json req = Ok data ->
  lacks_name_or_email data ->
  let r := (create_payment cfg w req).1 in
  let calls := (create_payment cfg w req).2 in
  calls = [] /\
  if opt_truthy (basic_auth cfg)
  then status r = 400 /\ field r (py "error") = Some (VBool true)
  else status r = 200 /\ field r (py "success") = Some (VBool true) /\
       field r (py "error") = None.
Proof.
  intros Hpost Hjson Hlacks r calls. subst r calls.
  destruct (opt_truthy (basic_auth cfg)) eqn:Hlive.
  2:{ rewrite create_payment_test_mode by assumption. answered. }
  rewrite (create_payment_live cfg w req data) by assumption.
  destruct (truthy data) eqn:Hdata; run_view; [|answered].
  destruct data as [|b|z|f|s|l|d]; simpl in Hlacks;
    try (simpl in Hdata; congruence).
  run_view.
  destruct (d !! py "customer") as [customer|] eqn:Hcust.
  2:{ rewrite bool_decide_eq_false_2 by (intros [? ?]; discriminate).
      answered. }
  rewrite bool_decide_eq_true_2 by eauto.
  destruct customer as [|b|z|f|s|l|c]; try contradiction.
  run_view.
  destruct Hlacks as [Hname|Hemail].
  - rewrite Hname. answered.
  - destruct (truthy (default VNone (c !! py "name"))); run_view;
      [rewrite Hemail|]; answered.
Qed.

Lemma missing_name_or_email_rejected_witness :
  let req := post [(py "customer",
                    VDict (list_to_map [(py "name", VStr (py "Ana"))]))] in
  let r := (create_payment (H:=ascii_runtime) live_config processor_down req).1 in
  let calls :=
    (create_payment (H:=ascii_runtime) live_config processor_down req).2 in
  calls = [] /\
  status r = 400 /\ field r (py "error") = Some (VBool true).
Proof.
  apply (missing_name_or_email_rejected (H:=ascii_runtime) live_config
           processor_down
           (post [(py "customer",
                   VDict (list_to_map [(py "name", VStr (py "Ana"))]))])
           _ eq_refl eq_refl).
  right. reflexivity.
Defined.

(** C3 as stated fails in test mode, where a body without any customer is
    answered 200 with no error flag; and with credentials configured a
    customer that is not an object ends in the 500 of the catch-all. *)
Lemma missing_name_not_always_400 :
  let no_customer := post [(py "amount", VInt 890)] in
  let null_customer := post [(py "customer", VNone)] in
  let r := (create_payment (H:=ascii_runtime) test_config processor_down
              no_customer).1 in
  let r' := (create_payment (H:=ascii_runtime) live_config processor_down
               null_customer).1 in
  (status r = 200 /\ field r (py "error") = None) /\ status r' = 500.
Proof. repeat split; reflexivity. Qed.

(** C5, as amended: a POST whose body is an object with an amount below
    100, and whose customer, when present, is an object, makes no call to
    the processor whatever the name and email are; with credentials
    configured it is answered 400 with the error flag set, and in test
    mode it gets the synthetic 200 success. *)
Theorem amount_below_minimum_rejected `{Runtime} (cfg : Config) (w : World)
    (req : Request) (d : dict) (amount : value) :
  method req = POST ->
  get_json req = Ok (VDict d) ->
  d !! py "amount" = Some amount ->
  py_lt_int amount 100 = Ok true ->
  (forall customer, d !! py "customer" = Some customer ->
                    type_of customer = dict_t) ->
  let r := (create_payment cfg w req).1 in
  let calls := (create_payment cfg w req).2 in
  calls = [] /\
  if opt_truthy (basic_auth cfg)
  then status r = 400 /\ field r (py "error") = Some (VBool true)
  else status r = 200 /\ field r (py "success") = Some (VBool true).
Proof.
  intros Hpost Hjson Hamount Hsmall Hcustomer r calls. subst r calls.
  destruct (opt_truthy (basic_auth cfg)) eqn:Hlive.
  2:{ rewrite create_payment_test_mode by assumption. answered. }
  rewrite (create_payment_live cfg w req (VDict d)) by assumption.
  rewrite (dict_with_key_truthy d _ _ Hamount). run_view.
  destruct (d !! py "customer") as [customer|] eqn:Hcust.
  2:{ rewrite bool_decide_eq_false_2 by (intros [? ?]; discriminate).
      answered. }
  rewrite bool_decide_eq_true_2 by eauto.
  specialize (Hcustomer customer eq_refl).
  destruct customer as [|b|z|f|s|l|c]; try discriminate.
  rewrite Hamount. run_view.
  destruct (truthy (default VNone (c !! py "name"))); run_view; [|answered].
  destruct (truthy (default VNone (c !! py "email"))); run_view; [|answered].
  rewrite Hsmall. answered.
Qed.

Lemma amount_below_minimum_rejected_witness :
  let req := post [(py "customer", ana); (py "amount", VInt 99)] in
  let r := (create_payment (H:=ascii_runtime) live_config processor_down req).1 in
  let calls :=
    (create_payment (H:=ascii_runtime) live_config processor_down req).2 in
  calls = [] /\
  status r = 400 /\ field r (py "error") = Some (VBool true).
Proof.
  apply (amount_below_minimum_rejected (H:=ascii_runtime) live_config
           processor_down
           (post [(py "customer", ana); (py "amount", VInt 99)])
           _ (VInt 99) eq_refl eq_refl eq_refl eq_refl).
  intros customer. vm_compute. intros [= <-]. reflexivity.
Defined.

(** C5 as stated fails in test mode, where an amount of 50 is answered
    200; and with credentials configured the same amount next to a
    customer that is not an object ends in the 500 of the catch-all. *)
Lemma small_amount_not_always_400 :
  let valid := post [(py "customer", ana); (py "amount", VInt 50)] in
  let odd := post [(py "customer", VStr (py "Ana")); (py "amount", VInt 50)] in
  let r := (create_payment (H:=ascii_runtime) test_config processor_down valid).1 in
  let r' := (create_payment (H:=ascii_runtime) live_config processor_down odd).1 in
  status r = 200 /\ status r' = 500.
Proof. split; reflexivity. Qed.

(** C10: with credentials configured and a customer carrying a name and an
    email, an amount that [<] cannot compare with 100 (null, a string, a
    list, an object) makes the comparison raise; the catch-all answers 500
    with the generic internal-error message, not 400, and nothing is sent
    to the processor. *)
Theorem incomparable_amount_internal_error `{Runtime} (cfg : Config)
    (w : World) (req : Request) (d c : dict) (amount : value) :
  method req = POST ->
  opt_truthy (basic_auth cfg) = true ->
  get_json req = Ok (VDict d) ->
  d !! py "customer" = Some (VDict c) ->
  truthy (default VNone (c !! py "name")) = true ->
  truthy (default VNone (c !! py "email")) = true ->
  d !! py "amount" = Some amount ->
  comparable_with_int amount = false ->
  let r := (create_payment cfg w req).1 in
  let calls := (create_payment cfg w req).2 in
  status r = 500 /\
  field r (py "error") = Some (VBool true) /\
  field r (py "message") =
    Some (VStr (py "Erro interno: "
                ++ exn_text (TypeError op_less (type_of amount)))) /\
  calls = [].
Proof.
  intros Hpost Hlive Hjson Hcust Hname Hemail Hamount Hcmp r calls.
  subst r calls.
  rewrite (create_payment_live cfg w req (VDict d)) by assumption.
  rewrite (dict_with_key_truthy d _ _ Hcust). run_view.
  rewrite bool_decide_eq_true_2 by eauto.
  rewrite Hcust, Hamount. run_view. rewrite Hname. run_view.
  rewrite Hemail. run_view.
  destruct amount; try discriminate; answered.
Qed.

Lemma incomparable_amount_internal_error_witness :
  let req := post [(py "customer", ana); (py "amount", VStr (py "890"))] in
  let r := (create_payment (H:=ascii_runtime) live_config processor_down req).1 in
  let calls :=
    (create_payment (H:=ascii_runtime) live_config processor_down req).2 in
  status r = 500 /\
  field r (py "error") = Some (VBool true) /\
  field r (py "message") =
    Some (VStr (py "Erro interno: "
                ++ py "'<' not supported between instances of 'str' and 'int'")) /\
  calls = [].
Proof.
  apply (incomparable_amount_internal_error (H:=ascii_runtime) live_config
           processor_down
           (post [(py "customer", ana); (py "amount", VStr (py "890"))])
           (list_to_map
              [(py "customer", ana); (py "amount", VStr (py "890"))])
           (list_to_map ana_fields) (VStr (py "890")));
    reflexivity.
Defined.

(** *** Normalizing the processor's answer *)

Lemma normalize_accepted (response : Response) (rd pix : dict) (q : value) :
  status_code response ∈ [200; 201] ->
  json response = Ok (VDict rd) ->
  default (VDict ∅) (rd !! py "pix") = VDict pix ->
  List.find truthy (qr_candidates pix) = Some q ->
  normalize_response response [] =
  (Ok (jsonify
     [(py "success", VBool true);
      (py "transaction", VDict (list_to_map
         [(py "id", default VNone (rd !! py "id"));
          (py "status", default VNone (rd !! py "status"));
          (py "amount", default VNone (rd !! py "amount"))]));
      (py "pix", VDict (list_to_map
         [(py "qr_code", q); (py "code", q); (py "copy_paste", q)]))]), []).
Proof.
  intros Hstatus Hjson Hpix Hfind. unfold normalize_response.
  rewrite bool_decide_eq_true_2 by assumption. rewrite Hjson.
  unfold extract_qr_code. run_view. rewrite Hpix. run_view.
  unfold qr_candidates in Hfind. cbn [List.find] in Hfind.
  destruct (truthy (default VNone (pix !! py "qrcode"))) eqn:Ha.
  { injection Hfind as <-. rewrite ?Ha. reflexivity. }
  destruct (truthy (default VNone (pix !! py "qrCode"))) eqn:Hb.
  { injection Hfind as <-. rewrite ?Hb. reflexivity. }
  destruct (truthy (default VNone (pix !! py "text"))) eqn:Hc;
    [|discriminate].
  injection Hfind as <-. rewrite ?Hc. reflexivity.
Qed.

(** C6: when the processor answers 200 or 201, the QR code is the first
    truthy value among [pix.qrcode], [pix.qrCode] and [pix.text], in that
    order; a non-empty [qrcode] wins whatever [qrCode] holds; and the
    chosen value is returned under [qr_code], [code] and [copy_paste]. *)
Theorem qr_code_priority `{Runtime} (cfg : Config) (w : World)
    (req : Request) (c : Call) (response : Response) (rd pix : dict)
    (q : value) :
  method req = POST ->
  (create_payment cfg w req).2 = [c] ->
  requests w c = Ok response ->
  status_code response ∈ [200; 201] ->
  json response = Ok (VDict rd) ->
  default (VDict ∅) (rd !! py "pix") = VDict pix ->
  List.find truthy (qr_candidates pix) = Some q ->
  let r := (create_payment cfg w req).1 in
  status r = 200 /\
  field r (py "success") = Some (VBool true) /\
  subfield (field r (py "pix")) (py "qr_code") = Some q /\
  subfield (field r (py "pix")) (py "code") = Some q /\
  subfield (field r (py "pix")) (py "copy_paste") = Some q /\
  (forall a, pix !! py "qrcode" = Some a -> truthy a = true -> q = a).
Proof.
  intros Hpost Hlog Hanswer Hstatus Hjson Hpix Hfind r. subst r.
  rewrite (create_payment_forwarded cfg w req c response) by assumption.
  unfold try_except.
  rewrite (normalize_accepted response rd pix q) by assumption.
  repeat split; try reflexivity.
  intros a Ha Htruthy. unfold qr_candidates in Hfind.
  cbn [List.find] in Hfind. rewrite Ha in Hfind. cbn [from_option id] in Hfind.
  rewrite Htruthy in Hfind. congruence.
Qed.

Lemma qr_code_priority_witness :
  let req := post [(py "customer", ana); (py "amount", VInt 890)] in
  let r := (create_payment (H:=ascii_runtime) live_config processor_accepts req).1 in
  let q := VStr (py "PIX-A") in
  status r = 200 /\
  field r (py "success") = Some (VBool true) /\
  subfield (field r (py "pix")) (py "qr_code") = Some q /\
  subfield (field r (py "pix")) (py "code") = Some q /\
  subfield (field r (py "pix")) (py "copy_paste") = Some q /\
  (forall a,
     (list_to_map
        [(py "qrcode", VStr (py "PIX-A")); (py "qrCode", VStr (py "PIX-B"))]
      : dict) !! py "qrcode" = Some a ->
     truthy a = true -> q = a).
Proof.
  eapply (qr_code_priority (H:=ascii_runtime) live_config processor_accepts
            (post [(py "customer", ana); (py "amount", VInt 890)])
            _ _ (list_to_map accepted_fields)).
  - reflexivity.
  - vm_compute. reflexivity.
  - reflexivity.
  - vm_compute. set_solver.
  - reflexivity.
  - reflexivity.
  - reflexivity.
Defined.

Lemma normalize_refused (response : Response) :
  status_code response ∉ [200; 201] ->
  normalize_response response [] =
  (Ok (error_response
     [(py "message",
       VStr (py "Erro na API GhostPay: "
             ++ str_of_int (status_code response)));
      (py "details",
       VStr (match text response with
             | [] => py "Sem resposta"
             | _ :: _ => take 200 (text response)
             end))]
     (status_code response)), []).
Proof.
  intros Hstatus. unfold normalize_response.
  rewrite bool_decide_eq_false_2 by assumption.
  destruct (text response); reflexivity.
Qed.

Lemma normalize_unusable `{Runtime} (response : Response) :
  status_code response ∈ [200; 201] ->
  match json response with
  | Ok (VDict rd) =>
      match default (VDict ∅) (rd !! py "pix") with
      | VDict pix => List.find truthy (qr_candidates pix) = None
      | _ => True
      end
  | _ => True
  end ->
  let r := (try_except (normalize_response response) internal_error).1 in
  status r = 500 /\ field r (py "error") = Some (VBool true).
Proof.
  intros Hstatus Hjson r. subst r. unfold normalize_response.
  rewrite bool_decide_eq_true_2 by assumption.
  destruct (json response) as [[|b|z|f|s|l|rd]|e]; try answered.
  unfold extract_qr_code. run_view.
  destruct (default (VDict ∅) (rd !! py "pix")) as [|b|z|f|s|l|pix];
    try answered.
  unfold qr_candidates in Hjson. cbn [List.find] in Hjson. run_view.
  destruct (truthy (default VNone (pix !! py "qrcode"))); [discriminate|].
  destruct (truthy (default VNone (pix !! py "qrCode"))); [discriminate|].
  destruct (truthy (default VNone (pix !! py "text"))) eqn:Htext;
    [discriminate|].
  rewrite ?Htext. answered.
Qed.

(** C8, as amended: when the processor answers the create-transaction call
    with a status other than 200 and 201, the service answers with that
    same status; unless that status is 1xx, 204 or 304, which are served
    without a body, the answer carries the error flag and [details] equal
    to the first 200 characters of the raw body, or to the fixed text
    "Sem resposta" when that body is empty; on 200 and 201 the answer is
    built from the parsed JSON body, whose id, status and amount it
    returns when a QR code is found, and is a 500 otherwise. *)
Theorem upstream_error_propagated `{Runtime} (cfg : Config) (w : World)
    (req : Request) (c : Call) (response : Response) :
  method req = POST ->
  (create_payment cfg w req).2 = [c] ->
  requests w c = Ok response ->
  let r := (create_payment cfg w req).1 in
  if bool_decide (status_code response ∈ [200; 201]) then
    match json response with
    | Ok (VDict rd) =>
        match default (VDict ∅) (rd !! py "pix") with
        | VDict pix =>
            match List.find truthy (qr_candidates pix) with
            | Some q =>
                status r = 200 /\
                subfield (field r (py "transaction")) (py "id") =
                  Some (default VNone (rd !! py "id")) /\
                subfield (field r (py "transaction")) (py "status") =
                  Some (default VNone (rd !! py "status")) /\
                subfield (field r (py "transaction")) (py "amount") =
                  Some (default VNone (rd !! py "amount"))
            | None => status r = 500 /\ field r (py "error") = Some (VBool true)
            end
        | _ => status r = 500 /\ field r (py "error") = Some (VBool true)
        end
    | _ => status r = 500 /\ field r (py "error") = Some (VBool true)
    end
  else
    status r = status_code response /\
    if bodiless (status_code response) then body r = EmptyBody
    else
      field r (py "error") = Some (VBool true) /\
      field r (py "details") =
        Some (VStr (match text response with
                    | [] => py "Sem resposta"
                    | _ :: _ => take 200 (text response)
                    end)) /\
      (length (take 200 (text response)) <= 200)%nat.
Proof.
  intros Hpost Hlog Hanswer r. subst r.
  rewrite (create_payment_forwarded cfg w req c response) by assumption.
  case_bool_decide as Hstatus.
  - pose proof (normalize_unusable response Hstatus) as Hbad.
    cbv zeta in Hbad.
    destruct (json response) as [[|b|z|f|s|l|rd]|e] eqn:Hjson; auto.
    destruct (default (VDict ∅) (rd !! py "pix")) as [|b|z|f|s|l|pix]
      eqn:Hpix; auto.
    destruct (List.find truthy (qr_candidates pix)) as [q|] eqn:Hfind; auto.
    unfold try_except.
    rewrite (normalize_accepted response rd pix q) by assumption. answered.
  - unfold try_except. rewrite normalize_refused by assumption.
    split; [reflexivity|].
    unfold error_response, with_status, field. cbn [fst status body].
    destruct (bodiless (status_code response)); [reflexivity|].
    repeat split; try reflexivity. rewrite length_take. lia.
Qed.

Lemma upstream_error_propagated_witness :
  let req := post [(py "customer", ana); (py "amount", VInt 890)] in
  let r := (create_payment (H:=ascii_runtime) live_config processor_rejects req).1 in
  status r = 422 /\
  field r (py "error") = Some (VBool true) /\
  field r (py "details") = Some (VStr (py "Unprocessable Entity")) /\
  (length (take 200 (py "Unprocessable Entity")) <= 200)%nat.
Proof.
  eapply (upstream_error_propagated (H:=ascii_runtime) live_config processor_rejects
            (post [(py "customer", ana); (py "amount", VInt 890)])
            _ rejection).
  - reflexivity.
  - vm_compute. reflexivity.
  - reflexivity.
Defined.

(** C8 as stated fails in two ways.  When the processor's error has an
    empty body, [details] is the text "Sem resposta", which is no part of
    the (empty) upstream body; and when the processor answers 204, the
    service passes the 204 on without any body, so without error flag
    and without [details]. *)
Lemma upstream_error_body_not_as_claimed :
  let req := post [(py "customer", ana); (py "amount", VInt 890)] in
  let r := (create_payment (H:=ascii_runtime) live_config processor_down
              req).1 in
  let r' := (create_payment (H:=ascii_runtime) live_config
               processor_no_content req).1 in
  (status r = 500 /\
   field r (py "details") = Some (VStr (py "Sem resposta")) /\
   ~ exists n : nat,
       field r (py "details") = Some (VStr (take n (text outage)))) /\
  (status r' = 204 /\
   body r' = EmptyBody /\
   field r' (py "error") = None /\
   field r' (py "details") = None).
Proof.
  repeat split; try reflexivity.
  intros [n Hn]. vm_compute in Hn. destruct n; discriminate.
Qed.

(** *** Checking a payment *)

(** C9, as amended: with credentials configured, GET /check-payment/{id}
    asks the processor once; every upstream status other than 200 gives a
    404 reporting the transaction as not found; an upstream 200 whose
    parsed body is an object gives success:true with that body's status
    and paidAt and the whole body as the transaction; and an upstream 200
    whose body does not parse, or parses to something other than an
    object, gives a 500 with the error flag. *)
Theorem check_payment_not_found_unless_200 `{Runtime} (cfg : Config)
    (w : World) (transaction_id : str) (response : Response) :
  opt_truthy (basic_auth cfg) = true ->
  let c := requests_get (GHOSTPAY_URL ++ py "/" ++ transaction_id)
             (create_headers cfg) 30 in
  requests w c = Ok response ->
  let r := (check_payment cfg w GET transaction_id).1 in
  let calls := (check_payment cfg w GET transaction_id).2 in
  calls = [c] /\
  if bool_decide (status_code response = 200) then
    match json response with
    | Ok (VDict data) =>
        status r = 200 /\
        field r (py "success") = Some (VBool true) /\
        field r (py "status") = Some (default VNone (data !! py "status")) /\
        field r (py "paid_at") = Some (default VNone (data !! py "paidAt")) /\
        field r (py "transaction") = Some (VDict data)
    | _ => status r = 500 /\ field r (py "error") = Some (VBool true)
    end
  else
    status r = 404 /\
    field r (py "error") = Some (VBool true) /\
    field r (py "message") = Some (VStr (py "Transação não encontrada")).
Proof.
  intros Hlive c Hanswer r calls. subst r calls.
  unfold check_payment, check_payment_body. rewrite Hlive.
  unfold send. fold c. run_view. rewrite Hanswer.
  case_bool_decide as Hstatus; [|answered].
  destruct (json response) as [[|b|z|f|s|l|data]|e]; answered.
Qed.

Lemma check_payment_not_found_unless_200_witness :
  let r := (check_payment (H:=ascii_runtime) live_config processor_down GET
              (py "abc123")).1 in
  let calls := (check_payment (H:=ascii_runtime) live_config processor_down GET
                  (py "abc123")).2 in
  calls = [requests_get (GHOSTPAY_URL ++ py "/" ++ py "abc123")
             (create_headers live_config) 30] /\
  status r = 404 /\
  field r (py "error") = Some (VBool true) /\
  field r (py "message") = Some (VStr (py "Transação não encontrada")).
Proof.
  apply (check_payment_not_found_unless_200 (H:=ascii_runtime) live_config
           processor_down (py "abc123") outage); reflexivity.
Defined.

(** C9 as stated fails on an upstream 200 whose body is JSON but not an
    object: for the array [[1]] the lookup [data.get] raises and the
    answer is a 500 with the error flag, not a success. *)
Lemma check_payment_200_not_always_success :
  let r := (check_payment (H:=ascii_runtime) live_config processor_odd_body
              GET (py "abc123")).1 in
  status_code odd_body = 200 /\
  status r = 500 /\
  field r (py "error") = Some (VBool true) /\
  field r (py "success") = None.
Proof. repeat split; reflexivity. Qed.

(** The same view on an upstream 200. *)
Example check_payment_paid :
  let r := (check_payment (H:=ascii_runtime) live_config processor_paid GET
              (py "abc123")).1 in
  status r = 200 /\
  field r (py "status") = Some (VStr (py "paid")) /\
  field r (py "paid_at") = Some (VStr (py "2024-05-01T12:00:00Z")) /\
  field r (py "transaction") = Some (VDict (list_to_map paid_fields)).
Proof. repeat split; reflexivity. Qed.

(** ** Further properties of the code *)

(** *** What reaches the processor *)

Lemma build_payload_run `{Runtime} (w : World) (d cust : dict)
    (number : str) (log : list Call) :
  clean_document (default VNone (cust !! py "document")) = Ok number ->
  build_payload w (VDict d) (VDict cust)
    (default (VInt PRODUCT_PRICE) (d !! py "amount")) log =
  (Ok (forwarded_payload w d cust number), log).
Proof.
  intros Hclean. unfold build_payload. run_view. rewrite Hclean.
  reflexivity.
Qed.

(** The conditions under which a request is forwarded, read off lines
    118-165, and the call that is then made. *)
Lemma create_payment_body_forwards `{Runtime} (cfg : Config) (w : World)
    (req : Request) (d cust : dict) (number : str) :
  opt_truthy (basic_auth cfg) = true ->
  get_json req = Ok (VDict d) ->
  d !! py "customer" = Some (VDict cust) ->
  truthy (default VNone (cust !! py "name")) = true ->
  truthy (default VNone (cust !! py "email")) = true ->
  py_lt_int (default (VInt PRODUCT_PRICE) (d !! py "amount")) 100
    = Ok false ->
  clean_document (default VNone (cust !! py "document")) = Ok number ->
  create_payment_body cfg w req [] =
  forward cfg w (forwarded_payload w d cust number) [].
Proof.
  intros Hlive Hjson Hcust Hname Hemail Hamount Hclean.
  unfold create_payment_body. rewrite Hlive, Hjson. run_view.
  rewrite (dict_with_key_truthy d _ _ Hcust). run_view.
  rewrite bool_decide_eq_true_2 by eauto. rewrite Hcust. run_view.
  rewrite Hname. run_view. rewrite Hemail. run_view. rewrite Hamount.
  rewrite (build_payload_run w d cust number) by assumption. reflexivity.
Qed.

Ltac error_shaped :=
  repeat split; try reflexivity; eexists; reflexivity.

Ltac ends_rejected :=
  intros [= <- <-]; left; split; [reflexivity|];
  try (intros ? [= <-]; error_shaped); try (intros ? [=]).

(** Conversely, in a process with credentials the body either ends
    without a call, a returned answer then being one of the 400s, or all
    those conditions hold. *)
Lemma create_payment_body_inv `{Runtime} (cfg : Config) (w : World)
    (req : Request) (r : result HttpResponse) (log : list Call) :
  opt_truthy (basic_auth cfg) = true ->
  create_payment_body cfg w req [] = (r, log) ->
  (log = [] /\ forall r', r = Ok r' -> error_shape r' 400) \/
  exists d cust number,
    get_json req = Ok (VDict d) /\
    d !! py "customer" = Some (VDict cust) /\
    truthy (default VNone (cust !! py "name")) = true /\
    truthy (default VNone (cust !! py "email")) = true /\
    py_lt_int (default (VInt PRODUCT_PRICE) (d !! py "amount")) 100
      = Ok false /\
    clean_document (default VNone (cust !! py "document")) = Ok number.
Proof.
  intros Hlive. unfold create_payment_body. rewrite Hlive. cbn [negb].
  destruct (get_json req) as [data|e]; run_view; [|ends_rejected].
  destruct (truthy data) eqn:Hdata; cbn [negb]; [|ends_rejected].
  destruct data as [|b|z|f|s|l|d]; run_view; try ends_rejected;
    try (destruct (existsb _ _); ends_rejected);
    try (destruct (is_substring _ _); ends_rejected).
  destruct (d !! py "customer") as [customer|] eqn:Hcust.
  2:{ rewrite bool_decide_eq_false_2 by (intros [? ?]; discriminate).
      ends_rejected. }
  rewrite bool_decide_eq_true_2 by eauto.
  destruct customer as [|b|z|f|s|l|cust]; run_view; try ends_rejected.
  destruct (truthy (default VNone (cust !! py "name"))) eqn:Hname;
    cbn [negb]; [|ends_rejected].
  destruct (truthy (default VNone (cust !! py "email"))) eqn:Hemail;
    cbn [negb]; [|ends_rejected].
  destruct (py_lt_int _ 100) as [[|]|e] eqn:Hamount; try ends_rejected.
  destruct (clean_document (default VNone (cust !! py "document")))
    as [number|e] eqn:Hclean.
  - intros _. right. exists d, cust, number. repeat split; assumption.
  - unfold build_payload. run_view. rewrite Hclean. ends_rejected.
Qed.

(** *** How a run of [create_payment] can end *)

Lemma internal_error_shape `{Runtime} (e : exn) :
  error_shape (internal_error e) 500.
Proof. error_shaped. Qed.

Lemma normalize_response_outcome (response : Response) :
  exists x,
    normalize_response response [] = (x, []) /\
    if bool_decide (status_code response ∈ [200; 201]) then
      forall r, x = Ok r ->
        (success_shape r /\ field r (py "test_mode") = None) \/
        error_shape r 500
    else exists r, x = Ok r /\ refusal_shape r (status_code response).
Proof.
  case_bool_decide as Hstatus.
  2:{ eexists. split; [apply normalize_refused; assumption|].
      eexists. split; [reflexivity|].
      unfold refusal_shape, error_shape, error_response, with_status, field.
      cbn [status body].
      destruct (bodiless (status_code response)); [repeat split|].
      error_shaped. }
  unfold normalize_response. rewrite bool_decide_eq_true_2 by assumption.
  destruct (json response) as [[|b|z|f|s|l|rd]|e]; run_view;
    try (eexists; split; [reflexivity|]; intros ? [=]).
  destruct (default (VDict ∅) (rd !! py "pix")) as [|b|z|f|s|l|pix];
    unfold extract_qr_code; run_view;
    try (eexists; split; [reflexivity|]; intros ? [=]).
  destruct (truthy (default VNone (pix !! py "qrcode"))) eqn:Ha.
  { rewrite ?Ha. eexists. split; [reflexivity|]. intros ? [= <-]. left.
    repeat split; try reflexivity. eexists. split; [exact Ha|].
    repeat split; reflexivity. }
  destruct (truthy (default VNone (pix !! py "qrCode"))) eqn:Hb.
  { rewrite ?Hb. eexists. split; [reflexivity|]. intros ? [= <-]. left.
    repeat split; try reflexivity. eexists. split; [exact Hb|].
    repeat split; reflexivity. }
  destruct (truthy (default VNone (pix !! py "text"))) eqn:Hc.
  { rewrite ?Hc. eexists. split; [reflexivity|]. intros ? [= <-]. left.
    repeat split; try reflexivity. eexists. split; [exact Hc|].
    repeat split; reflexivity. }
  rewrite ?Hc. eexists. split; [reflexivity|]. intros ? [= <-]. right.
  error_shaped.
Qed.

Lemma create_payment_unfold `{Runtime} (cfg : Config) (w : World)
    (req : Request) :
  method req <> OPTIONS ->
  create_payment cfg w req =
  try_except (create_payment_body cfg w req) internal_error.
Proof. unfold create_payment. destruct (method req); congruence. Qed.

(** What a forwarded request logs and returns. *)
Lemma create_payment_forwards `{Runtime} (cfg : Config) (w : World)
    (req : Request) (d cust : dict) (number : str) :
  method req <> OPTIONS ->
  opt_truthy (basic_auth cfg) = true ->
  get_json req = Ok (VDict d) ->
  d !! py "customer" = Some (VDict cust) ->
  truthy (default VNone (cust !! py "name")) = true ->
  truthy (default VNone (cust !! py "email")) = true ->
  py_lt_int (default (VInt PRODUCT_PRICE) (d !! py "amount")) 100
    = Ok false ->
  clean_document (default VNone (cust !! py "document")) = Ok number ->
  let c := requests_post GHOSTPAY_URL (forwarded_payload w d cust number)
             (create_headers cfg) 30 in
  create_payment cfg w req =
  (match requests w c with
   | Ok response =>
       (try_except (normalize_response response) internal_error).1
   | Raise e => internal_error e
   end, [c]).
Proof.
  intros Hmeth Hlive Hjson Hcust Hname Hemail Hamount Hclean c.
  rewrite create_payment_unfold by assumption. unfold try_except.
  rewrite (create_payment_body_forwards cfg w req d cust number)
    by assumption.
  rewrite forward_run. cbv zeta. fold c.
  destruct (requests w c) as [response|e]; [|reflexivity].
  destruct (normalize_response_silent response) as [x Hx]. rewrite !Hx.
  destruct x; reflexivity.
Qed.

(** Every run of the view on a request other than a pre-flight ends in
    one of the five ways of [outcome]. *)
Lemma create_payment_outcome `{Runtime} (cfg : Config) (w : World)
    (req : Request) :
  method req <> OPTIONS ->
  outcome cfg w (create_payment cfg w req).1 (create_payment cfg w req).2.
Proof.
  intros Hmeth. destruct (opt_truthy (basic_auth cfg)) eqn:Hlive.
  2:{ rewrite create_payment_unfold by assumption.
      unfold try_except, create_payment_body. rewrite Hlive.
      apply synthetic; [assumption| |reflexivity].
      repeat split; try reflexivity.
      exists (VStr create_test_qr_code). repeat split; reflexivity. }
  destruct (create_payment_body cfg w req []) as [x log] eqn:Hbody.
  destruct (create_payment_body_inv cfg w req x log Hlive Hbody)
    as [[-> Hx]|(d & cust & number & Hjson & Hcust & Hname & Hemail
                 & Hamount & Hclean)].
  - rewrite create_payment_unfold by assumption. unfold try_except.
    rewrite Hbody. destruct x as [r|e]; cbn [fst snd].
    + apply rejected; auto.
    + apply crashed; [assumption|apply internal_error_shape].
  - rewrite (create_payment_forwards cfg w req d cust number)
      by assumption.
    cbv zeta. cbn [fst snd].
    set (c := requests_post _ _ _ _).
    destruct (requests w c) as [response|e] eqn:Hanswer.
    2:{ apply crashed; [assumption|apply internal_error_shape]. }
    destruct (normalize_response_outcome response) as (y & Hy & Hshape).
    unfold try_except. rewrite Hy.
    case_bool_decide as Hstatus.
    + destruct y as [r|e]; cbn [fst].
      * destruct (Hshape r eq_refl) as [[Hok Hnone]|Herr].
        -- eapply normalized; eassumption.
        -- apply crashed; assumption.
      * apply crashed; [assumption|apply internal_error_shape].
    + destruct Hshape as (r & -> & Herr). cbn [fst].
      eapply refused; eassumption.
Qed.

(** A call in the log of [create_payment] is the one a validated request
    leads to. *)
Lemma create_payment_calls_inv `{Runtime} (cfg : Config) (w : World)
    (req : Request) (c : Call) :
  c ∈ (create_payment cfg w req).2 ->
  exists d cust number,
    opt_truthy (basic_auth cfg) = true /\
    get_json req = Ok (VDict d) /\
    d !! py "customer" = Some (VDict cust) /\
    truthy (default VNone (cust !! py "name")) = true /\
    truthy (default VNone (cust !! py "email")) = true /\
    py_lt_int (default (VInt PRODUCT_PRICE) (d !! py "amount")) 100
      = Ok false /\
    clean_document (default VNone (cust !! py "document")) = Ok number /\
    (create_payment cfg w req).2 = [c] /\
    c = requests_post GHOSTPAY_URL (forwarded_payload w d cust number)
          (create_headers cfg) 30.
Proof.
  intros Hin.
  assert (method req <> OPTIONS) as Hmeth.
  { intros Hopt. unfold create_payment in Hin. rewrite Hopt in Hin.
    cbn [snd] in Hin. inversion Hin. }
  destruct (opt_truthy (basic_auth cfg)) eqn:Hlive.
  2:{ rewrite create_payment_unfold in Hin by assumption.
      unfold try_except, create_payment_body in Hin. rewrite Hlive in Hin.
      cbn [negb mret M_ret snd] in Hin. inversion Hin. }
  destruct (create_payment_body cfg w req []) as [x log] eqn:Hbody.
  destruct (create_payment_body_inv cfg w req x log Hlive Hbody)
    as [[-> Hx]|(d & cust & number & Hjson & Hcust & Hname & Hemail
                 & Hamount & Hclean)].
  - rewrite create_payment_unfold in Hin by assumption.
    unfold try_except in Hin. rewrite Hbody in Hin.
    destruct x; cbn [snd] in Hin; inversion Hin.
  - exists d, cust, number.
    rewrite (create_payment_forwards cfg w req d cust number) in Hin |- *
      by assumption.
    cbv zeta in Hin |- *. cbn [snd] in Hin |- *.
    apply list_elem_of_singleton in Hin as ->. repeat split; assumption.
Qed.

Lemma sample_call_logged :
  (create_payment (H:=ascii_runtime) live_config processor_accepts
     sample_request).2 = [sample_call].
Proof. vm_compute. reflexivity. Qed.

Lemma sample_call_in_log :
  sample_call ∈ (create_payment (H:=ascii_runtime) live_config
                   processor_accepts sample_request).2.
Proof. rewrite sample_call_logged. apply list_elem_of_here. Qed.

(** *** [create_headers] *)

Lemma create_headers_lookup (cfg : Config) (k : str) :
  create_headers cfg !! k =
  if bool_decide (k = py "Company-ID") then
    (if opt_truthy (GHOSTPAY_COMPANY_ID cfg)
     then Some (format_opt (GHOSTPAY_COMPANY_ID cfg)) else None)
  else if bool_decide (k = py "accept") then Some (py "application/json")
  else if bool_decide (k = py "content-type")
       then Some (py "application/json")
  else if bool_decide (k = py "authorization")
       then Some (py "Basic " ++ format_opt (basic_auth cfg))
  else None.
Proof.
  unfold create_headers. cbn [list_to_map foldr uncurry fst snd].
  destruct (opt_truthy (GHOSTPAY_COMPANY_ID cfg)).
  - rewrite lookup_insert. case_bool_decide as Hk.
    + subst k. rewrite decide_True by reflexivity. reflexivity.
    + rewrite decide_False by congruence.
      rewrite !lookup_insert, lookup_empty.
      repeat (case_bool_decide; [subst k; rewrite decide_True by reflexivity; reflexivity|rewrite decide_False by congruence]).
      reflexivity.
  - case_bool_decide as Hk.
    + subst k. reflexivity.
    + rewrite !lookup_insert, lookup_empty.
      repeat (case_bool_decide; [subst k; rewrite decide_True by reflexivity; reflexivity|rewrite decide_False by congruence]).
      reflexivity.
Qed.

(** X1: the headers of a processor call are accept and content-type set
    to application/json, authorization set to Basic followed by the
    token, and Company-ID only when a non-empty company id is configured;
    there is no other header. *)
Theorem create_headers_contents (cfg : Config) :
  let hs := create_headers cfg in
  hs !! py "accept" = Some (py "application/json") /\
  hs !! py "content-type" = Some (py "application/json") /\
  hs !! py "authorization"
    = Some (py "Basic " ++ format_opt (basic_auth cfg)) /\
  hs !! py "Company-ID"
    = match GHOSTPAY_COMPANY_ID cfg with
      | Some (c :: id) => Some (c :: id)
      | _ => None
      end /\
  forall k,
    k ∉ [py "accept"; py "content-type"; py "authorization";
         py "Company-ID"] ->
    hs !! k = None.
Proof.
  intros hs. subst hs. repeat split.
  - rewrite create_headers_lookup. reflexivity.
  - rewrite create_headers_lookup. reflexivity.
  - rewrite create_headers_lookup. reflexivity.
  - rewrite create_headers_lookup. rewrite bool_decide_eq_true_2 by reflexivity.
    destruct (GHOSTPAY_COMPANY_ID cfg) as [[|c id]|]; reflexivity.
  - intros k Hk. rewrite create_headers_lookup.
    repeat (case_bool_decide; [subst k; exfalso; apply Hk; set_solver|]).
    reflexivity.
Qed.

Lemma check_payment_calls_inv `{Runtime} (cfg : Config) (w : World)
    (meth : Method) (transaction_id : str) (c : Call) :
  c ∈ (check_payment cfg w meth transaction_id).2 ->
  meth <> OPTIONS /\
  opt_truthy (basic_auth cfg) = true /\
  (check_payment cfg w meth transaction_id).2 = [c] /\
  c = requests_get (GHOSTPAY_URL ++ py "/" ++ transaction_id)
        (create_headers cfg) 30.
Proof.
  unfold check_payment, check_payment_body.
  destruct (opt_truthy (basic_auth cfg)) eqn:Hlive; cbn [negb].
  - set (c' := requests_get _ _ _).
    assert (forall h : exn -> HttpResponse,
              (try_except
                 (send w c' ≫= λ response,
                    if bool_decide (status_code response = 200) then
                      data ← lift (json response);
                      st ← lift (py_get data (py "status") VNone);
                      paid_at ← lift (py_get data (py "paidAt") VNone);
                      mret (jsonify
                        [(py "success", VBool true);
                         (py "status", st);
                         (py "paid_at", paid_at);
                         (py "transaction", data)])
                    else
                      mret (error_response
                        [(py "message",
                          VStr (py "Transação não encontrada"))] 404))
                 h).2 = [c']) as Hlog.
    { intros h. unfold send. run_view.
      destruct (requests w c') as [response|e]; [|reflexivity].
      case_bool_decide; [|reflexivity].
      destruct (json response) as [[|b|z|f|s|l|data]|e]; reflexivity. }
    destruct meth; cbn [snd]; rewrite ?Hlog; intros Hin;
      try (inversion Hin; fail);
      apply list_elem_of_singleton in Hin as ->;
      repeat split; congruence.
  - destruct meth; cbn [snd]; unfold try_except; run_view;
      intros Hin; inversion Hin.
Qed.

(** X2: no call ever leaves with the header "Basic None": whenever
    [create_payment] or [check_payment] calls the processor, a non-empty
    token is configured and the authorization header is Basic followed by
    that token. *)
Theorem outbound_calls_carry_token `{Runtime} (cfg : Config) (w : World)
    (req : Request) (meth : Method) (transaction_id : str) (c : Call) :
  c ∈ (create_payment cfg w req).2 \/
  c ∈ (check_payment cfg w meth transaction_id).2 ->
  exists token,
    basic_auth cfg = Some token /\ token <> [] /\
    call_headers c !! py "authorization" = Some (py "Basic " ++ token).
Proof.
  intros Hin.
  assert (opt_truthy (basic_auth cfg) = true /\
          call_headers c = create_headers cfg) as [Hlive ->].
  { destruct Hin as [Hin|Hin].
    - apply create_payment_calls_inv in Hin
        as (d & cust & number & Hlive & _ & _ & _ & _ & _ & _ & _ & ->).
      split; [assumption|reflexivity].
    - apply check_payment_calls_inv in Hin as (_ & Hlive & _ & ->).
      split; [assumption|reflexivity]. }
  destruct (basic_auth cfg) as [[|t token]|] eqn:Hauth; try discriminate.
  exists (t :: token). repeat split; [discriminate|].
  rewrite create_headers_lookup, Hauth. reflexivity.
Qed.

Lemma outbound_calls_carry_token_witness :
  exists token,
    basic_auth live_config = Some token /\ token <> [] /\
    call_headers sample_call !! py "authorization"
      = Some (py "Basic " ++ token).
Proof.
  apply (outbound_calls_carry_token (H:=ascii_runtime) live_config
           processor_accepts sample_request GET (py "abc123") sample_call).
  left. exact sample_call_in_log.
Defined.

(** X3: [create_payment] makes at most one outbound call, and that call
    is always a POST to the transactions endpoint with the headers of
    [create_headers] and a 30-second timeout. *)
Theorem create_payment_single_post `{Runtime} (cfg : Config) (w : World)
    (req : Request) (c : Call) :
  c ∈ (create_payment cfg w req).2 ->
  (create_payment cfg w req).2 = [c] /\
  is_Some (call_payload c) /\
  call_url c = GHOSTPAY_URL /\
  call_headers c = create_headers cfg /\
  call_timeout c = 30.
Proof.
  intros Hin. apply create_payment_calls_inv in Hin
    as (d & cust & number & _ & _ & _ & _ & _ & _ & _ & Hlog & ->).
  repeat split; [assumption|eexists; reflexivity].
Qed.

Lemma create_payment_single_post_witness :
  (create_payment (H:=ascii_runtime) live_config processor_accepts
     sample_request).2 = [sample_call] /\
  is_Some (call_payload sample_call) /\
  call_url sample_call = GHOSTPAY_URL /\
  call_headers sample_call = create_headers live_config /\
  call_timeout sample_call = 30.
Proof.
  apply (create_payment_single_post (H:=ascii_runtime) live_config
           processor_accepts sample_request sample_call).
  exact sample_call_in_log.
Defined.

Lemma clean_document_digits `{Runtime} (document : value) (number : str) :
  clean_document document = Ok number ->
  forallb unicode_decimal number = true.
Proof.
  unfold clean_document. destruct (truthy document).
  - destruct document; try discriminate. intros [= <-].
    apply filter_satisfies.
  - intros [= <-]. apply forallb_forall. intros c Hc.
    apply ascii_digit_decimal.
    pose proof placeholder_eleven_digits as [_ Hdigits].
    eapply forallb_forall in Hdigits; eassumption.
Qed.

(** The part of the inversion the payload properties start from. *)
Lemma forwarded_call_payload `{Runtime} (cfg : Config) (w : World)
    (req : Request) (d cust : dict) (c : Call) :
  get_json req = Ok (VDict d) ->
  d !! py "customer" = Some (VDict cust) ->
  c ∈ (create_payment cfg w req).2 ->
  exists number,
    truthy (default VNone (cust !! py "name")) = true /\
    truthy (default VNone (cust !! py "email")) = true /\
    py_lt_int (default (VInt PRODUCT_PRICE) (d !! py "amount")) 100
      = Ok false /\
    clean_document (default VNone (cust !! py "document")) = Ok number /\
    call_payload c = Some (forwarded_payload w d cust number).
Proof.
  intros Hjson Hcust Hin. apply create_payment_calls_inv in Hin
    as (d' & cust' & number & _ & Hjson' & Hcust' & Hname & Hemail
        & Hamount & Hclean & _ & ->).
  rewrite Hjson in Hjson'. injection Hjson' as <-.
  rewrite Hcust in Hcust'. injection Hcust' as <-.
  exists number. repeat split; assumption.
Qed.

(** X4: nothing below the minimum is ever forwarded: in every call to the
    processor the payload's amount is the request's amount, or 890 when
    the request has none, it is not below 100, and the single line item
    carries the same value as its unit price. *)
Theorem forwarded_amount_not_below_minimum `{Runtime} (cfg : Config)
    (w : World) (req : Request) (d cust : dict) (c : Call) :
  get_json req = Ok (VDict d) ->
  d !! py "customer" = Some (VDict cust) ->
  c ∈ (create_payment cfg w req).2 ->
  let amount := default (VInt 890) (d !! py "amount") in
  py_lt_int amount 100 = Ok false /\
  subfield (call_payload c) (py "amount") = Some amount /\
  subfield (element (subfield (call_payload c) (py "items")) 0)
    (py "unitPrice") = Some amount.
Proof.
  intros Hjson Hcust Hin amount.
  destruct (forwarded_call_payload cfg w req d cust c Hjson Hcust Hin)
    as (number & _ & _ & Hamount & _ & ->).
  repeat split; [exact Hamount|reflexivity..].
Qed.

Lemma forwarded_amount_not_below_minimum_witness :
  let amount := VInt 1500 in
  py_lt_int amount 100 = Ok false /\
  subfield (call_payload sample_call) (py "amount") = Some amount /\
  subfield (element (subfield (call_payload sample_call) (py "items")) 0)
    (py "unitPrice") = Some amount.
Proof.
  apply (forwarded_amount_not_below_minimum (H:=ascii_runtime) live_config
           processor_accepts sample_request (list_to_map sample_fields)
           (list_to_map
              [(py "name", VStr (py "Ana")); (py "email", VStr (py "a@x.com"));
               (py "phone", VNone);
               (py "document", VStr (py "123.456.789-09"))])
           sample_call eq_refl eq_refl sample_call_in_log).
Defined.

(** X5: every forwarded payload carries the request's own customer name
    and email, both non-empty; the fallbacks written into the payload
    ("Cliente Venda Hoje", the company address) can never apply. *)
Theorem forwarded_name_and_email_from_request `{Runtime} (cfg : Config)
    (w : World) (req : Request) (d cust : dict) (c : Call) :
  get_json req = Ok (VDict d) ->
  d !! py "customer" = Some (VDict cust) ->
  c ∈ (create_payment cfg w req).2 ->
  exists name email,
    cust !! py "name" = Some name /\ truthy name = true /\
    cust !! py "email" = Some email /\ truthy email = true /\
    subfield (subfield (call_payload c) (py "customer")) (py "name")
      = Some name /\
    subfield (subfield (call_payload c) (py "customer")) (py "email")
      = Some email.
Proof.
  intros Hjson Hcust Hin.
  destruct (forwarded_call_payload cfg w req d cust c Hjson Hcust Hin)
    as (number & Hname & Hemail & _ & _ & ->).
  destruct (cust !! py "name") as [name|] eqn:Hn; [|discriminate].
  destruct (cust !! py "email") as [email|] eqn:He; [|discriminate].
  exists name, email. repeat split; try assumption.
  - transitivity
      (Some (default (VStr (py "Cliente Venda Hoje")) (cust !! py "name")));
      [reflexivity|rewrite Hn; reflexivity].
  - transitivity
      (Some (default (VStr COMPANY_EMAIL) (cust !! py "email")));
      [reflexivity|rewrite He; reflexivity].
Qed.

Lemma forwarded_name_and_email_from_request_witness :
  exists name email,
    (list_to_map
       [(py "name", VStr (py "Ana")); (py "email", VStr (py "a@x.com"));
        (py "phone", VNone); (py "document", VStr (py "123.456.789-09"))]
     : dict) !! py "name" = Some name /\ truthy name = true /\
    (list_to_map
       [(py "name", VStr (py "Ana")); (py "email", VStr (py "a@x.com"));
        (py "phone", VNone); (py "document", VStr (py "123.456.789-09"))]
     : dict) !! py "email" = Some email /\ truthy email = true /\
    subfield (subfield (call_payload sample_call) (py "customer"))
      (py "name") = Some name /\
    subfield (subfield (call_payload sample_call) (py "customer"))
      (py "email") = Some email.
Proof.
  apply (forwarded_name_and_email_from_request (H:=ascii_runtime)
           live_config processor_accepts sample_request
           (list_to_map sample_fields) _ sample_call eq_refl eq_refl
           sample_call_in_log).
Defined.

(** X6: the document number in every forwarded payload is a string made
    only of digit characters, the result of [clean_document] on the
    customer's document, and its type is always CPF. *)
Theorem forwarded_document_is_digits `{Runtime} (cfg : Config) (w : World)
    (req : Request) (d cust : dict) (c : Call) :
  get_json req = Ok (VDict d) ->
  d !! py "customer" = Some (VDict cust) ->
  c ∈ (create_payment cfg w req).2 ->
  let document :=
    subfield (subfield (call_payload c) (py "customer")) (py "document") in
  exists number,
    clean_document (default VNone (cust !! py "document")) = Ok number /\
    forallb unicode_decimal number = true /\
    subfield document (py "number") = Some (VStr number) /\
    subfield document (py "type") = Some (VStr (py "CPF")).
Proof.
  intros Hjson Hcust Hin document. subst document.
  destruct (forwarded_call_payload cfg w req d cust c Hjson Hcust Hin)
    as (number & _ & _ & _ & Hclean & ->).
  exists number. repeat split; [assumption| |reflexivity..].
  eapply clean_document_digits; eassumption.
Qed.

Lemma forwarded_document_is_digits_witness :
  let document :=
    subfield (subfield (call_payload sample_call) (py "customer"))
      (py "document") in
  exists number,
    clean_document (H:=ascii_runtime) (VStr (py "123.456.789-09"))
      = Ok number /\
    forallb ascii_digit number = true /\
    subfield document (py "number") = Some (VStr number) /\
    subfield document (py "type") = Some (VStr (py "CPF")).
Proof.
  apply (forwarded_document_is_digits (H:=ascii_runtime) live_config
           processor_accepts sample_request (list_to_map sample_fields)
           (list_to_map
              [(py "name", VStr (py "Ana")); (py "email", VStr (py "a@x.com"));
               (py "phone", VNone);
               (py "document", VStr (py "123.456.789-09"))])
           sample_call eq_refl eq_refl sample_call_in_log).
Defined.

(** X7: phone and description take their defaults ("11999999999", the
    product name) only when the key is absent from the request; a key
    that is present is forwarded as it is, even when null or empty. *)
Theorem forwarded_optional_fields `{Runtime} (cfg : Config) (w : World)
    (req : Request) (d cust : dict) (c : Call) :
  get_json req = Ok (VDict d) ->
  d !! py "customer" = Some (VDict cust) ->
  c ∈ (create_payment cfg w req).2 ->
  subfield (subfield (call_payload c) (py "customer")) (py "phone")
    = Some (match cust !! py "phone" with
            | Some phone => phone
            | None => VStr (py "11999999999")
            end) /\
  subfield (call_payload c) (py "description")
    = Some (match d !! py "description" with
            | Some description => description
            | None => VStr (py "Mentoria Venda Hoje - Acesso Vitalício")
            end).
Proof.
  intros Hjson Hcust Hin.
  destruct (forwarded_call_payload cfg w req d cust c Hjson Hcust Hin)
    as (number & _ & _ & _ & _ & ->).
  split.
  - transitivity
      (Some (default (VStr (py "11999999999")) (cust !! py "phone")));
      [reflexivity|destruct (cust !! py "phone"); reflexivity].
  - transitivity
      (Some (default (VStr PRODUCT_NAME) (d !! py "description")));
      [reflexivity|destruct (d !! py "description"); reflexivity].
Qed.

Lemma forwarded_optional_fields_witness :
  subfield (subfield (call_payload sample_call) (py "customer")) (py "phone")
    = Some VNone /\
  subfield (call_payload sample_call) (py "description")
    = Some (VStr (py "Mentoria Venda Hoje - Acesso Vitalício")).
Proof.
  apply (forwarded_optional_fields (H:=ascii_runtime) live_config
           processor_accepts sample_request (list_to_map sample_fields)
           (list_to_map
              [(py "name", VStr (py "Ana")); (py "email", VStr (py "a@x.com"));
               (py "phone", VNone);
               (py "document", VStr (py "123.456.789-09"))])
           sample_call eq_refl eq_refl sample_call_in_log).
Defined.

(** X8: a forwarded payload always asks for PIX and has exactly one line
    item, of quantity 1, whose external reference is venda-hoje- followed
    by the Unix time in seconds; two requests forwarded within the same
    second therefore carry the same external reference. *)
Theorem forwarded_external_ref_from_clock `{Runtime} (cfg cfg' : Config)
    (w w' : World) (req req' : Request) (c c' : Call) :
  c ∈ (create_payment cfg w req).2 ->
  c' ∈ (create_payment cfg' w' req').2 ->
  let item := element (subfield (call_payload c) (py "items")) 0 in
  let item' := element (subfield (call_payload c') (py "items")) 0 in
  subfield (call_payload c) (py "paymentMethod") = Some (VStr (py "PIX")) /\
  element (subfield (call_payload c) (py "items")) 1 = None /\
  subfield item (py "quantity") = Some (VInt 1) /\
  subfield item (py "externalRef")
    = Some (VStr (py "venda-hoje-" ++ str_of_int (time w))) /\
  (time w = time w' ->
   subfield item (py "externalRef") = subfield item' (py "externalRef")).
Proof.
  intros Hin Hin' item item'. subst item item'.
  apply create_payment_calls_inv in Hin
    as (d & cust & number & _ & _ & _ & _ & _ & _ & _ & _ & ->).
  apply create_payment_calls_inv in Hin'
    as (d' & cust' & number' & _ & _ & _ & _ & _ & _ & _ & _ & ->).
  repeat split; try reflexivity.
  intros Htime.
  transitivity (Some (VStr (py "venda-hoje-" ++ str_of_int (time w))));
    [reflexivity|rewrite Htime; reflexivity].
Qed.

Lemma forwarded_external_ref_from_clock_witness :
  let item := element (subfield (call_payload sample_call) (py "items")) 0 in
  subfield (call_payload sample_call) (py "paymentMethod")
    = Some (VStr (py "PIX")) /\
  element (subfield (call_payload sample_call) (py "items")) 1 = None /\
  subfield item (py "quantity") = Some (VInt 1) /\
  subfield item (py "externalRef")
    = Some (VStr (py "venda-hoje-" ++ str_of_int 1700000000)) /\
  (1700000000 = 1700000000 ->
   subfield item (py "externalRef") = subfield item (py "externalRef")).
Proof.
  apply (forwarded_external_ref_from_clock (H:=ascii_runtime)
           live_config live_config processor_accepts processor_accepts
           sample_request sample_request sample_call sample_call
           sample_call_in_log sample_call_in_log).
Defined.

(** X9: the processor is contacted exactly when credentials are
    configured and the parsed body is an object whose customer is an
    object with a non-empty name and email, whose amount (890 when
    absent) compares as not below 100, and whose document can be
    cleaned, that is, is falsy or a string. *)
Theorem forwarded_iff_validated `{Runtime} (cfg : Config) (w : World)
    (req : Request) :
  (create_payment cfg w req).2 <> [] <->
  method req <> OPTIONS /\
  opt_truthy (basic_auth cfg) = true /\
  exists d cust number,
    get_json req = Ok (VDict d) /\
    d !! py "customer" = Some (VDict cust) /\
    truthy (default VNone (cust !! py "name")) = true /\
    truthy (default VNone (cust !! py "email")) = true /\
    py_lt_int (default (VInt PRODUCT_PRICE) (d !! py "amount")) 100
      = Ok false /\
    clean_document (default VNone (cust !! py "document")) = Ok number.
Proof.
  split.
  - intros Hcalls.
    destruct (create_payment cfg w req).2 as [|c calls] eqn:Hlog;
      [congruence|].
    assert (c ∈ (create_payment cfg w req).2) as Hin
      by (rewrite Hlog; apply list_elem_of_here).
    assert (method req <> OPTIONS) as Hmeth.
    { intros Hopt. unfold create_payment in Hlog. rewrite Hopt in Hlog.
      discriminate. }
    apply create_payment_calls_inv in Hin
      as (d & cust & number & Hlive & Hjson & Hcust & Hname & Hemail
          & Hamount & Hclean & _ & _).
    repeat split; try assumption.
    exists d, cust, number. repeat split; assumption.
  - intros (Hmeth & Hlive & d & cust & number & Hjson & Hcust & Hname
            & Hemail & Hamount & Hclean).
    rewrite (create_payment_forwards cfg w req d cust number)
      by assumption.
    discriminate.
Qed.

(** X10: when the call to the processor itself raises (timeout,
    connection failure), [create_payment] answers 500 with the error flag
    and the message Erro interno: followed by the exception's text. *)
Theorem processor_exception_is_internal_error `{Runtime} (cfg : Config)
    (w : World) (req : Request) (c : Call) (e : exn) :
  c ∈ (create_payment cfg w req).2 ->
  requests w c = Raise e ->
  let r := (create_payment cfg w req).1 in
  status r = 500 /\
  field r (py "error") = Some (VBool true) /\
  field r (py "message")
    = Some (VStr (py "Erro interno: " ++ exn_text e)).
Proof.
  intros Hin Hraise r. subst r.
  apply create_payment_calls_inv in Hin
    as (d & cust & number & Hlive & Hjson & Hcust & Hname & Hemail
        & Hamount & Hclean & Hlog & ->).
  assert (method req <> OPTIONS) as Hmeth.
  { intros Hopt. unfold create_payment in Hlog. rewrite Hopt in Hlog.
    discriminate. }
  rewrite (create_payment_forwards cfg w req d cust number) by assumption.
  cbv zeta. rewrite Hraise. repeat split; reflexivity.
Qed.

Lemma sample_call_unreachable :
  sample_call ∈ (create_payment (H:=ascii_runtime) live_config
                   processor_unreachable sample_request).2.
Proof.
  assert ((create_payment (H:=ascii_runtime) live_config
             processor_unreachable sample_request).2 = [sample_call])
    as -> by (vm_compute; reflexivity).
  apply list_elem_of_here.
Qed.

Lemma processor_exception_is_internal_error_witness :
  let r := (create_payment (H:=ascii_runtime) live_config
              processor_unreachable sample_request).1 in
  status r = 500 /\
  field r (py "error") = Some (VBool true) /\
  field r (py "message")
    = Some (VStr (py "Erro interno: " ++ py "Read timed out.")).
Proof.
  apply (processor_exception_is_internal_error (H:=ascii_runtime)
           live_config processor_unreachable sample_request sample_call
           (Raised (py "Read timed out.")) sample_call_unreachable eq_refl).
Defined.

(** *** Answers of [create_payment] *)

(** X11: every answer to a POST /create-payment is of one of three
    kinds: a 200 JSON object with success:true, no error key, and one
    non-empty QR value under qr_code, code and copy_paste; a JSON object
    with error:true, a message string, no success key, and a status other
    than 200; or, when the one call to the processor was answered with a
    status 1xx, 204 or 304, that status passed on without any body. *)
Theorem create_payment_success_or_error `{Runtime} (cfg : Config)
    (w : World) (req : Request) :
  method req = POST ->
  let r := (create_payment cfg w req).1 in
  let calls := (create_payment cfg w req).2 in
  success_shape r \/
  (exists code, code <> 200 /\ error_shape r code) \/
  exists c response,
    calls = [c] /\ requests w c = Ok response /\
    bodiless (status_code response) = true /\
    status r = status_code response /\ body r = EmptyBody.
Proof.
  intros Hpost r calls. subst r calls.
  assert (method req <> OPTIONS) as Hmeth by congruence.
  destruct (create_payment_outcome cfg w req Hmeth)
    as [r _ Hok _|r _ Herr|r calls _ Herr|r c response _ _ _ Hok _
        |r c response _ Hanswer Hstatus Hrefusal].
  - left. assumption.
  - right. left. exists 400. split; [discriminate|assumption].
  - right. left. exists 500. split; [discriminate|assumption].
  - left. assumption.
  - destruct Hrefusal as (Hcode & _ & _ & Hbody).
    destruct (bodiless (status_code response)) eqn:Hbodiless.
    + right. right. exists c, response. repeat split; assumption.
    + right. left. exists (status_code response). split; [|assumption].
      intros Heq. apply Hstatus. rewrite Heq. set_solver.
Qed.

Lemma create_payment_success_or_error_witness :
  let r := (create_payment (H:=ascii_runtime) live_config
              processor_no_content sample_request).1 in
  let calls := (create_payment (H:=ascii_runtime) live_config
                  processor_no_content sample_request).2 in
  success_shape r \/
  (exists code, code <> 200 /\ error_shape r code) \/
  exists c response,
    calls = [c] /\ requests processor_no_content c = Ok response /\
    bodiless (status_code response) = true /\
    status r = status_code response /\ body r = EmptyBody.
Proof.
  apply (create_payment_success_or_error (H:=ascii_runtime) live_config
           processor_no_content sample_request eq_refl).
Defined.

(** The three kinds on sample runs: the processor accepts, refuses with
    422, and answers 204. *)
Example create_payment_three_kinds :
  let accepted := (create_payment (H:=ascii_runtime) live_config
                     processor_accepts sample_request).1 in
  let refused := (create_payment (H:=ascii_runtime) live_config
                    processor_rejects sample_request).1 in
  let passed_on := (create_payment (H:=ascii_runtime) live_config
                      processor_no_content sample_request).1 in
  (status accepted = 200 /\
   field accepted (py "success") = Some (VBool true)) /\
  (status refused = 422 /\
   field refused (py "error") = Some (VBool true)) /\
  (status passed_on = 204 /\ body passed_on = EmptyBody).
Proof. repeat split; reflexivity. Qed.

(** X12: the status of an answer to a POST /create-payment is 200, 400 or
    500, or else it is the status the processor gave to the one call
    that was made, a status other than 200 and 201; and a 200 is never
    returned after the processor answered anything but 200 or 201. *)
Theorem create_payment_status_taxonomy `{Runtime} (cfg : Config)
    (w : World) (req : Request) :
  method req = POST ->
  let r := (create_payment cfg w req).1 in
  let calls := (create_payment cfg w req).2 in
  (status r = 200 /\
   ((calls = [] /\ opt_truthy (basic_auth cfg) = false) \/
    exists c response,
      calls = [c] /\ requests w c = Ok response /\
      status_code response ∈ [200; 201])) \/
  (status r = 400 /\ calls = []) \/
  status r = 500 \/
  exists c response,
    calls = [c] /\ requests w c = Ok response /\
    (status_code response ∉ [200; 201]) /\
    status r = status_code response.
Proof.
  intros Hpost r calls. subst r calls.
  assert (method req <> OPTIONS) as Hmeth by congruence.
  destruct (create_payment_outcome cfg w req Hmeth)
    as [r Htest Hok _|r _ Herr|r calls _ Herr|r c response _ Hanswer Hin Hok _
        |r c response _ Hanswer Hstatus Herr].
  - left. split; [apply Hok|]. left. split; [reflexivity|assumption].
  - right. left. split; [apply Herr|reflexivity].
  - right. right. left. apply Herr.
  - left. split; [apply Hok|]. right. eauto.
  - right. right. right. exists c, response.
    repeat split; try assumption. apply Herr.
Qed.

Lemma create_payment_status_taxonomy_witness :
  let r := (create_payment (H:=ascii_runtime) live_config processor_rejects
              sample_request).1 in
  let calls := (create_payment (H:=ascii_runtime) live_config
                  processor_rejects sample_request).2 in
  (status r = 200 /\
   ((calls = [] /\ opt_truthy (basic_auth live_config) = false) \/
    exists c response,
      calls = [c] /\ requests processor_rejects c = Ok response /\
      status_code response ∈ [200; 201])) \/
  (status r = 400 /\ calls = []) \/
  status r = 500 \/
  exists c response,
    calls = [c] /\ requests processor_rejects c = Ok response /\
    (status_code response ∉ [200; 201]) /\
    status r = status_code response.
Proof.
  apply (create_payment_status_taxonomy (H:=ascii_runtime) live_config
           processor_rejects sample_request eq_refl).
Defined.

(** X13: with credentials configured, a body Flask cannot parse, so that
    [request.get_json()] raises, is answered 500 by the catch-all with
    the exception's text, not 400, and nothing is sent to the
    processor. *)
Theorem unparsed_body_internal_error `{Runtime} (cfg : Config) (w : World)
    (req : Request) (e : exn) :
  method req = POST ->
  opt_truthy (basic_auth cfg) = true ->
  get_json req = Raise e ->
  let r := (create_payment cfg w req).1 in
  let calls := (create_payment cfg w req).2 in
  status r = 500 /\
  field r (py "error") = Some (VBool true) /\
  field r (py "message") = Some (VStr (py "Erro interno: " ++ exn_text e)) /\
  calls = [].
Proof.
  intros Hpost Hlive Hjson r calls. subst r calls.
  unfold create_payment, create_payment_body.
  rewrite Hpost, Hlive, Hjson. repeat split; reflexivity.
Qed.

Lemma unparsed_body_internal_error_witness :
  let req := {| method := POST;
                get_json := Raise (Raised (py "400 Bad Request")) |} in
  let r := (create_payment (H:=ascii_runtime) live_config processor_accepts
              req).1 in
  let calls := (create_payment (H:=ascii_runtime) live_config
                  processor_accepts req).2 in
  status r = 500 /\
  field r (py "error") = Some (VBool true) /\
  field r (py "message")
    = Some (VStr (py "Erro interno: " ++ py "400 Bad Request")) /\
  calls = [].
Proof.
  apply (unparsed_body_internal_error (H:=ascii_runtime) live_config
           processor_accepts
           {| method := POST;
              get_json := Raise (Raised (py "400 Bad Request")) |}
           (Raised (py "400 Bad Request")));
    reflexivity.
Defined.

(** X14: with credentials configured, a parsed body that is not a JSON
    object never reaches the processor and always gets the error flag:
    400 when it is falsy (null, false, 0, an empty string or array) or is
    an array or string that does not contain "customer", and 500 in
    every other case, where looking up the customer raises. *)
Theorem non_object_body_never_forwarded `{Runtime} (cfg : Config)
    (w : World) (req : Request) (data : value) :
  method req = POST ->
  opt_truthy (basic_auth cfg) = true ->
  get_json req = Ok data ->
  type_of data <> dict_t ->
  let r := (create_payment cfg w req).1 in
  let calls := (create_payment cfg w req).2 in
  calls = [] /\
  field r (py "error") = Some (VBool true) /\
  status r = if negb (truthy data) then 400
             else match py_contains (py "customer") data with
                  | Ok false => 400
                  | _ => 500
                  end.
Proof.
  intros Hpost Hlive Hjson Htype r calls. subst r calls.
  rewrite (create_payment_live cfg w req data) by assumption.
  destruct (truthy data) eqn:Hdata; run_view; [|answered].
  destruct data as [|b|z|f|s|l|d]; cbn [type_of] in Htype;
    try congruence; run_view; try answered.
  - destruct (is_substring (py "customer") s); answered.
  - destruct (existsb (is_str (py "customer")) l); answered.
Qed.

Lemma non_object_body_never_forwarded_witness :
  let req := {| method := POST;
                get_json := Ok (VList [VStr (py "customer")]) |} in
  let r := (create_payment (H:=ascii_runtime) live_config processor_accepts
              req).1 in
  let calls := (create_payment (H:=ascii_runtime) live_config
                  processor_accepts req).2 in
  calls = [] /\
  field r (py "error") = Some (VBool true) /\
  status r = 500.
Proof.
  apply (non_object_body_never_forwarded (H:=ascii_runtime) live_config
           processor_accepts
           {| method := POST;
              get_json := Ok (VList [VStr (py "customer")]) |}
           (VList [VStr (py "customer")]));
    [reflexivity..|discriminate].
Defined.

(** *** [check_payment] *)

(** X15: in a process started without a secret key, GET
    /check-payment/{id} reports every transaction id as paid, with
    success:true and test_mode:true, and makes no outbound call. *)
Theorem check_payment_test_mode_paid `{Runtime} (key company : option str)
    (cfg : Config) (w : World) (transaction_id : str) :
  module_init key company = Ok cfg ->
  opt_truthy key = false ->
  let r := (check_payment cfg w GET transaction_id).1 in
  let calls := (check_payment cfg w GET transaction_id).2 in
  status r = 200 /\
  field r (py "success") = Some (VBool true) /\
  field r (py "test_mode") = Some (VBool true) /\
  field r (py "status") = Some (VStr (py "paid")) /\
  calls = [].
Proof.
  intros Hinit Hkey r calls. subst r calls.
  apply module_init_basic_auth in Hinit as [Hauth _].
  rewrite Hkey in Hauth.
  unfold check_payment, check_payment_body. rewrite Hauth.
  repeat split; reflexivity.
Qed.

Lemma check_payment_test_mode_paid_witness :
  let r := (check_payment (H:=ascii_runtime) test_config processor_down GET
              (py "abc123")).1 in
  let calls := (check_payment (H:=ascii_runtime) test_config processor_down
                  GET (py "abc123")).2 in
  status r = 200 /\
  field r (py "success") = Some (VBool true) /\
  field r (py "test_mode") = Some (VBool true) /\
  field r (py "status") = Some (VStr (py "paid")) /\
  calls = [].
Proof.
  apply (check_payment_test_mode_paid (H:=ascii_runtime) None None
           test_config processor_down (py "abc123"));
    reflexivity.
Defined.

(** How [check_payment] runs with credentials. *)
Lemma check_payment_live `{Runtime} (cfg : Config) (w : World)
    (transaction_id : str) :
  opt_truthy (basic_auth cfg) = true ->
  let c := requests_get (GHOSTPAY_URL ++ py "/" ++ transaction_id)
             (create_headers cfg) 30 in
  check_payment cfg w GET transaction_id =
  (match requests w c with
   | Raise e =>
       error_response [(py "message", VStr (py "Erro: " ++ exn_text e))] 500
   | Ok response =>
       if bool_decide (status_code response = 200) then
         match json response with
         | Ok (VDict data) =>
             jsonify
               [(py "success", VBool true);
                (py "status", default VNone (data !! py "status"));
                (py "paid_at", default VNone (data !! py "paidAt"));
                (py "transaction", VDict data)]
         | Ok data =>
             error_response
               [(py "message",
                 VStr (py "Erro: "
                       ++ exn_text (AttributeError (type_of data) (py "get"))))]
               500
         | Raise e =>
             error_response
               [(py "message", VStr (py "Erro: " ++ exn_text e))] 500
         end
       else
         error_response
           [(py "message", VStr (py "Transação não encontrada"))] 404
   end, [c]).
Proof.
  intros Hlive c. unfold check_payment, check_payment_body. rewrite Hlive.
  unfold send. fold c. run_view.
  destruct (requests w c) as [response|e]; [|reflexivity].
  case_bool_decide; [|reflexivity].
  destruct (json response) as [[|b|z|f|s|l|data]|e]; reflexivity.
Qed.

(** X16: with credentials configured, GET /check-payment/{id} makes
    exactly one outbound call whatever the processor then does: a GET to
    the transactions endpoint followed by a slash and the id as given,
    with the headers of [create_headers] and a 30-second timeout. *)
Theorem check_payment_single_get `{Runtime} (cfg : Config) (w : World)
    (transaction_id : str) :
  opt_truthy (basic_auth cfg) = true ->
  exists c,
    (check_payment cfg w GET transaction_id).2 = [c] /\
    call_payload c = None /\
    call_url c = GHOSTPAY_URL ++ py "/" ++ transaction_id /\
    call_headers c = create_headers cfg /\
    call_timeout c = 30.
Proof.
  intros Hlive. rewrite check_payment_live by assumption.
  eexists. repeat split.
Qed.

Lemma check_payment_single_get_witness :
  exists c,
    (check_payment (H:=ascii_runtime) live_config processor_unreachable GET
       (py "abc123")).2 = [c] /\
    call_payload c = None /\
    call_url c = GHOSTPAY_URL ++ py "/" ++ py "abc123" /\
    call_headers c = create_headers live_config /\
    call_timeout c = 30.
Proof.
  apply (check_payment_single_get (H:=ascii_runtime) live_config
           processor_unreachable (py "abc123") eq_refl).
Defined.

(** X17: GET /check-payment/{id} never passes the processor's status on:
    with credentials configured its answer is 200 with success:true, or
    404, or 500, and it is 500 exactly when something raised: the call
    itself, the parsing of a 200 body, or a 200 body that is not an
    object; the message is then Erro: followed by the exception's
    text. *)
Theorem check_payment_statuses `{Runtime} (cfg : Config) (w : World)
    (transaction_id : str) :
  opt_truthy (basic_auth cfg) = true ->
  let c := requests_get (GHOSTPAY_URL ++ py "/" ++ transaction_id)
             (create_headers cfg) 30 in
  let r := (check_payment cfg w GET transaction_id).1 in
  match requests w c with
  | Raise e =>
      status r = 500 /\ field r (py "error") = Some (VBool true) /\
      field r (py "message") = Some (VStr (py "Erro: " ++ exn_text e))
  | Ok response =>
      if bool_decide (status_code response = 200) then
        match json response with
        | Ok (VDict data) =>
            status r = 200 /\ field r (py "success") = Some (VBool true)
        | Ok data =>
            status r = 500 /\ field r (py "error") = Some (VBool true) /\
            field r (py "message")
              = Some (VStr (py "Erro: "
                            ++ exn_text (AttributeError (type_of data)
                                           (py "get"))))
        | Raise e =>
            status r = 500 /\ field r (py "error") = Some (VBool true) /\
            field r (py "message") = Some (VStr (py "Erro: " ++ exn_text e))
        end
      else status r = 404 /\ field r (py "error") = Some (VBool true)
  end.
Proof.
  intros Hlive c r. subst r. rewrite check_payment_live by assumption.
  fold c. cbn [fst].
  destruct (requests w c) as [response|e]; [|answered].
  case_bool_decide; [|answered].
  destruct (json response) as [[|b|z|f|s|l|data]|e]; answered.
Qed.

Lemma check_payment_statuses_witness :
  let r := (check_payment (H:=ascii_runtime) live_config
              processor_unreachable GET (py "abc123")).1 in
  status r = 500 /\ field r (py "error") = Some (VBool true) /\
  field r (py "message")
    = Some (VStr (py "Erro: " ++ py "Read timed out.")).
Proof.
  apply (check_payment_statuses (H:=ascii_runtime) live_config
           processor_unreachable (py "abc123") eq_refl).
Defined.

(** *** Pre-flight requests, the health view and the response hook *)

(** X18: a pre-flight (OPTIONS) request is answered with an empty 200
    body before any business logic: in either mode, and even when the
    body could not be parsed, [create_payment] and [check_payment] make
    no outbound call, and [health_check] and [home] answer the same
    way. *)
Theorem preflight_short_circuits `{Runtime} (cfg : Config) (w : World)
    (req : Request) (transaction_id timestamp : str) :
  method req = OPTIONS ->
  create_payment cfg w req = (empty_response 200, []) /\
  check_payment cfg w (method req) transaction_id = (empty_response 200, []) /\
  health_check cfg timestamp (method req) = empty_response 200 /\
  home (method req) = empty_response 200.
Proof.
  intros Hopt. unfold create_payment. rewrite Hopt. repeat split.
Qed.

Lemma preflight_short_circuits_witness :
  let req := {| method := OPTIONS;
                get_json := Raise (Raised (py "415 Unsupported Media Type")) |}
  in
  create_payment (H:=ascii_runtime) live_config processor_accepts req
    = (empty_response 200, []) /\
  check_payment (H:=ascii_runtime) live_config processor_accepts OPTIONS
    (py "abc123") = (empty_response 200, []) /\
  health_check live_config (py "2024-05-01 12:00:00") OPTIONS
    = empty_response 200 /\
  home OPTIONS = empty_response 200.
Proof.
  apply (preflight_short_circuits (H:=ascii_runtime) live_config
           processor_accepts
           {| method := OPTIONS;
              get_json := Raise (Raised (py "415 Unsupported Media Type")) |}
           (py "abc123") (py "2024-05-01 12:00:00") eq_refl).
Defined.

Lemma live_answer_has_no_test_mode `{Runtime} (cfg : Config) (w : World)
    (req : Request) :
  method req <> OPTIONS ->
  opt_truthy (basic_auth cfg) = true ->
  field (create_payment cfg w req).1 (py "test_mode") = None.
Proof.
  intros Hmeth Hlive.
  destruct (create_payment_outcome cfg w req Hmeth)
    as [r Htest _ _|r _ Herr|r calls _ Herr|r c response _ _ _ _ Hnone
        |r c response _ _ _ Herr];
    [congruence|apply Herr|apply Herr|assumption|apply Herr].
Qed.

(** X19: GET /health always answers 200, and the environment it reports
    agrees with how payments are handled: it says production exactly
    when the process was started with a non-empty secret key, and
    development exactly when POST /create-payment answers in test
    mode. *)
Theorem health_environment_matches_mode `{Runtime} (key company : option str)
    (cfg : Config) (w : World) (req : Request) (timestamp : str) :
  module_init key company = Ok cfg ->
  method req = POST ->
  let health := health_check cfg timestamp GET in
  let payment := (create_payment cfg w req).1 in
  status health = 200 /\
  field health (py "timestamp") = Some (VStr timestamp) /\
  field health (py "environment")
    = Some (VStr (if opt_truthy key then py "production"
                  else py "development")) /\
  (field health (py "environment") = Some (VStr (py "development")) <->
   field payment (py "test_mode") = Some (VBool true)).
Proof.
  intros Hinit Hpost health payment. subst health payment.
  apply module_init_basic_auth in Hinit as [Hauth _].
  assert (field (health_check cfg timestamp GET) (py "environment")
          = Some (VStr (if opt_truthy key then py "production"
                        else py "development"))) as Henv.
  { rewrite <- Hauth. reflexivity. }
  repeat split; try reflexivity; try assumption.
  - intros Hdev. rewrite Henv in Hdev.
    destruct (opt_truthy key) eqn:Hkey; [vm_compute in Hdev; discriminate|].
    rewrite create_payment_test_mode by assumption. reflexivity.
  - intros Htest. rewrite Henv.
    destruct (opt_truthy key) eqn:Hkey; [|reflexivity].
    rewrite live_answer_has_no_test_mode in Htest
      by (assumption || congruence).
    discriminate.
Qed.

Lemma health_environment_matches_mode_witness :
  let health := health_check live_config (py "2024-05-01 12:00:00") GET in
  let payment := (create_payment (H:=ascii_runtime) live_config
                    processor_accepts sample_request).1 in
  status health = 200 /\
  field health (py "timestamp") = Some (VStr (py "2024-05-01 12:00:00")) /\
  field health (py "environment") = Some (VStr (py "production")) /\
  (field health (py "environment") = Some (VStr (py "development")) <->
   field payment (py "test_mode") = Some (VBool true)).
Proof.
  apply (health_environment_matches_mode (H:=ascii_runtime)
           (Some (py "sk_live")) None live_config processor_accepts
           sample_request (py "2024-05-01 12:00:00"));
    reflexivity.
Defined.

Lemma header_values_app (hs hs' : list (str * str)) (k : str) :
  header_values (hs ++ hs') k = header_values hs k ++ header_values hs' k.
Proof.
  unfold header_values. rewrite List.filter_app, map_app. reflexivity.
Qed.

(** X20: [after_request] leaves the status and body alone and appends
    its three CORS headers after the ones the response already has; it
    adds, it does not replace, so a response that already carries an
    Access-Control-Allow-Origin header leaves with that value followed by
    a second one, the star. *)
Theorem after_request_appends_cors (response : FlaskResponse) :
  let served := after_request response in
  returned served = returned response /\
  response_headers served =
    response_headers response
    ++ [(py "Access-Control-Allow-Origin", py "*");
        (py "Access-Control-Allow-Headers", py "Content-Type,Authorization");
        (py "Access-Control-Allow-Methods",
         py "GET,PUT,POST,DELETE,OPTIONS")] /\
  header_values (response_headers served) (py "Access-Control-Allow-Origin")
    = header_values (response_headers response)
        (py "Access-Control-Allow-Origin") ++ [py "*"].
Proof.
  intros served. subst served. split; [reflexivity|].
  assert (response_headers (after_request response) =
          response_headers response
          ++ [(py "Access-Control-Allow-Origin", py "*");
              (py "Access-Control-Allow-Headers",
               py "Content-Type,Authorization");
              (py "Access-Control-Allow-Methods",
               py "GET,PUT,POST,DELETE,OPTIONS")]) as Hhs.
  { unfold after_request, headers_add. cbn [response_headers].
    rewrite <- !app_assoc. reflexivity. }
  split; [exact Hhs|]. rewrite Hhs, header_values_app. f_equal.
Qed.

(** *** The token computed at start-up *)







(** *** More on documents and on test mode *)

(** X22: cleaning a cleaned document again changes nothing, except when
    the first pass left nothing (a non-empty document without any digit):
    the second pass then substitutes the placeholder. *)
Theorem clean_document_twice `{Runtime} (s number : str) :
  clean_document (VStr s) = Ok number ->
  clean_document (VStr number) =
  Ok (match number with
      | [] => py "00000000191"
      | _ :: _ => number
      end).
Proof.
  intros Hclean. rewrite clean_document_str.
  destruct number as [|c number]; [reflexivity|].
  f_equal. apply filter_keeps_all.
  eapply clean_document_digits. eassumption.
Qed.

Lemma clean_document_twice_witness :
  clean_document (H:=ascii_runtime) (VStr []) = Ok (py "00000000191").
Proof.
  apply (clean_document_twice (H:=ascii_runtime) (py "abc") []).
  reflexivity.
Defined.

(** X23: a customer document that is present, truthy and not a string
    (a JSON number, say) makes [clean_document] raise; [create_payment]
    then answers 500 through the catch-all and sends nothing to the
    processor, although name, email and amount are valid. *)
Theorem non_string_document_internal_error `{Runtime} (cfg : Config)
    (w : World) (req : Request) (d cust : dict) (document : value) :
  method req = POST ->
  opt_truthy (basic_auth cfg) = true ->
  get_json req = Ok (VDict d) ->
  d !! py "customer" = Some (VDict cust) ->
  truthy (default VNone (cust !! py "name")) = true ->
  truthy (default VNone (cust !! py "email")) = true ->
  py_lt_int (default (VInt PRODUCT_PRICE) (d !! py "amount")) 100
    = Ok false ->
  cust !! py "document" = Some document ->
  truthy document = true ->
  type_of document <> str_t ->
  let r := (create_payment cfg w req).1 in
  let calls := (create_payment cfg w req).2 in
  status r = 500 /\
  field r (py "error") = Some (VBool true) /\
  field r (py "message")
    = Some (VStr (py "Erro interno: "
                  ++ exn_text (TypeError op_re_sub (type_of document)))) /\
  calls = [].
Proof.
  intros Hpost Hlive Hjson Hcust Hname Hemail Hamount Hdoc Htruthy Htype
    r calls.
  subst r calls.
  rewrite (create_payment_live cfg w req (VDict d)) by assumption.
  rewrite (dict_with_key_truthy d _ _ Hcust). run_view.
  rewrite bool_decide_eq_true_2 by eauto. rewrite Hcust. run_view.
  rewrite Hname. run_view. rewrite Hemail. run_view. rewrite Hamount.
  unfold build_payload. run_view. rewrite Hdoc. cbn [from_option id].
  unfold clean_document. rewrite Htruthy.
  destruct document; cbn [type_of] in Htype; try congruence; answered.
Qed.

Lemma non_string_document_internal_error_witness :
  let customer :=
    [(py "name", VStr (py "Ana")); (py "email", VStr (py "a@x.com"));
     (py "document", VInt 12345678909)] in
  let req := post [(py "customer", VDict (list_to_map customer))] in
  let r := (create_payment (H:=ascii_runtime) live_config processor_accepts
              req).1 in
  let calls := (create_payment (H:=ascii_runtime) live_config
                  processor_accepts req).2 in
  status r = 500 /\
  field r (py "error") = Some (VBool true) /\
  field r (py "message")
    = Some (VStr (py "Erro interno: "
                  ++ py "expected string or bytes-like object, got 'int'")) /\
  calls = [].
Proof.
  apply (non_string_document_internal_error (H:=ascii_runtime) live_config
           processor_accepts
           (post [(py "customer", VDict (list_to_map
                     [(py "name", VStr (py "Ana"));
                      (py "email", VStr (py "a@x.com"));
                      (py "document", VInt 12345678909)]))])
           (list_to_map
              [(py "customer", VDict (list_to_map
                  [(py "name", VStr (py "Ana"));
                   (py "email", VStr (py "a@x.com"));
                   (py "document", VInt 12345678909)]))])
           (list_to_map
              [(py "name", VStr (py "Ana"));
               (py "email", VStr (py "a@x.com"));
               (py "document", VInt 12345678909)])
           (VInt 12345678909));
    try reflexivity.
  discriminate.
Defined.

(** X24: in test mode the answer of POST /create-payment depends on
    nothing but the clock: two requests, whatever their bodies (valid,
    invalid or unparseable) and whatever the processor would do, get the
    same answer when served within the same second. *)
Theorem test_mode_answer_depends_on_clock_only `{Runtime} (cfg : Config)
    (w w' : World) (req req' : Request) :
  opt_truthy (basic_auth cfg) = false ->
  method req = POST -> method req' = POST ->
  time w = time w' ->
  create_payment cfg w req = create_payment cfg w' req'.
Proof.
  intros Htest Hpost Hpost' Htime.
  rewrite !create_payment_test_mode by assumption. rewrite Htime.
  reflexivity.
Qed.

Lemma test_mode_answer_depends_on_clock_only_witness :
  create_payment (H:=ascii_runtime) test_config processor_accepts
    sample_request
  = create_payment (H:=ascii_runtime) test_config processor_unreachable
      {| method := POST; get_json := Raise (Raised (py "400 Bad Request")) |}.
Proof.
  apply (test_mode_answer_depends_on_clock_only (H:=ascii_runtime)
           test_config processor_accepts processor_unreachable
           sample_request
           {| method := POST;
              get_json := Raise (Raised (py "400 Bad Request")) |});
    reflexivity.
Defined.
